(** * WekoSwordMapper: the JSON-LD to item-type metadata mapper

    A shallow embedding of [weko_swordserver/mapper.py] and the properties
    its specification states about it.

    Python values are embedded as the tagged tree [json]; the dynamic type
    tests of the source ([isinstance], truthiness, [is None]) become pattern
    matching.  The mapper mutates the output tree in place through
    references it rebinds while descending; here every builder is a state
    transformer on the node it was handed, and the descent into [node[k]]
    or [node[i]] is a zoom that writes the updated child back.  Exceptions
    are values: the state reached when the exception was raised is kept. *)

From Stdlib Require Import ZArith Ascii String.
From stdpp Require Import base list strings gmap.

Open Scope string_scope.
Open Scope Z_scope.

(** ** Python values *)

(** A JSON document as Python's [json] module loads it.  A [dict] keeps its
    insertion order, which [items()] exposes, so it is an association list
    whose first binding of a key is the live one.  Numbers are integers: the
    mapper only ever tests a number for truthiness. *)
#[local] Unset Elimination Schemes.
Inductive json : Type :=
| JNull
| JBool (b : bool)
| JNum (n : Z)
| JStr (s : string)
| JList (l : list json)
| JDict (d : list (string * json)).
#[local] Set Elimination Schemes.

(** The messages of [WekoSwordserverException], one constructor per [raise]
    of the module, carrying the values the f-string interpolates. *)
Inductive message : Type :=
| MissingKey (json_key : string)
    (* "Invalid mapping: No value got from {json_key}" *)
| PathExhaustedEarly (value : json) (json_key : string) (rest : list string)
    (* "Invalid mapping: Got {value} from {json_key} but still need to get {json_keys[1:]}" *)
| ListNotIterable
    (* "Invalid mapping: No value got from list" *)
| NestedListUnsupported
    (* "Invalid mapping: List in list not supported" *)
| ValueExhaustedEarly (json_keys : list string)
    (* "Invalid mapping: Got value from list but still need to get {json_keys}" *)
| UndefinedInSchema (item_map_key : string)
    (* "Invalid mapping: {item_map_key} is not defined in item type schema" *)
| InvalidSchemaPathLength (n m : nat)
    (* "Invalid mapping: type_of_item_type_path length: {n} is not equal to item_map_keys length: {m}" *)
| InvalidSchemaPathLast
    (* "Invalid mapping: Last element of type_of_item_type_path must be value" *)
| TooManyDimensions (json_value : json)
    (* "Invalid mapping: {json_value} contains too many dimensions" *)
| TrailingSegmentsAfterValue
    (* "Invalid mapping: 'value' must be the last key of type_of_item_type_path but got at first" *)
| ArrayRequiresListValue
    (* "Invalid mapping: If diff_array is 0 and dim_json_value is 0, num_array_type must be 0 but got 1" *)
| ValidationBatchFailed (error_msg : list string).
    (* the list of "{k} is not defined." built by validate_mapping *)

(** The exceptions a call can end with: the module's own, and the built-in
    ones Python raises on a failed subscript, attribute or item assignment. *)
Inductive exn : Type :=
| WekoSwordserverException (m : message)
| IndexError
| KeyError
| TypeError
| AttributeError.

Inductive result (A : Type) : Type :=
| Ok (a : A)
| Raise (e : exn).
Arguments Ok {A} a.
Arguments Raise {A} e.

#[export] Instance result_ret : MRet result := fun A a => Ok a.
#[export] Instance result_bind : MBind result := fun A B k r =>
  match r with
  | Ok a => k a
  | Raise e => Raise e
  end.

(** ** Primitive operations of the Python object model *)

Module Py.

(** [bool(v)], the test behind [if not v]. *)
Definition truthy (v : json) : bool :=
  match v with
  | JNull => false
  | JBool b => b
  | JNum n => negb (n =? 0)
  | JStr s => negb (String.eqb s "")
  | JList l => negb (Nat.eqb (length l) 0)
  | JDict d => negb (Nat.eqb (length d) 0)
  end.

Definition is_none (v : json) : bool :=
  match v with JNull => true | _ => false end.

Definition is_list (v : json) : bool :=
  match v with JList _ => true | _ => false end.

Definition is_dict (v : json) : bool :=
  match v with JDict _ => true | _ => false end.

(** Lookup of a key in a [dict]. *)
Fixpoint lookup (k : string) (d : list (string * json)) : option json :=
  match d with
  | [] => None
  | (k', v) :: d' => if String.eqb k k' then Some v else lookup k d'
  end.

(** [d[k] = v] on a [dict]: an existing key keeps its position, a new key
    goes last. *)
Fixpoint store (k : string) (v : json) (d : list (string * json))
  : list (string * json) :=
  match d with
  | [] => [(k, v)]
  | (k', v') :: d' =>
      if String.eqb k k' then (k, v) :: d' else (k', v') :: store k v d'
  end.

(** [o.get(k)]: only a [dict] has the method; a missing key gives
    [None]. *)
Definition get (o : json) (k : string) : result json :=
  match o with
  | JDict d => Ok (default JNull (lookup k d))
  | _ => Raise AttributeError
  end.

(** [o[k]] with a string key. *)
Definition getitem (o : json) (k : string) : result json :=
  match o with
  | JDict d =>
      match lookup k d with
      | Some v => Ok v
      | None => Raise KeyError
      end
  | _ => Raise TypeError
  end.

(** [o[k] = v] with a string key. *)
Definition setitem (o : json) (k : string) (v : json) : result json :=
  match o with
  | JDict d => Ok (JDict (store k v d))
  | _ => Raise TypeError
  end.

(** [o[i]] with an integer index [i >= 0].  The keys of a JSON [dict] are
    strings, so an integer is never one of them. *)
Definition index (o : json) (i : nat) : result json :=
  match o with
  | JList l =>
      match l !! i with
      | Some v => Ok v
      | None => Raise IndexError
      end
  | JStr s =>
      match String.get i s with
      | Some c => Ok (JStr (String c EmptyString))
      | None => Raise IndexError
      end
  | JDict _ => Raise KeyError
  | _ => Raise TypeError
  end.

(** What [o] looks like after the object obtained as [o[i]] has been
    mutated into [v]: a list holds a reference to it, whereas the items of
    a [str] are fresh immutable strings. *)
Definition reindex (o : json) (i : nat) (v : json) : json :=
  match o with
  | JList l => JList (<[i:=v]> l)
  | _ => o
  end.

(** What [o] looks like after the object obtained as [o[k]] has been
    mutated into [v]. *)
Definition rekey (o : json) (k : string) (v : json) : json :=
  match o with
  | JDict d => JDict (store k v d)
  | _ => o
  end.

(** [s.split('.')]. *)
Fixpoint split (s : string) : list string :=
  match s with
  | EmptyString => [EmptyString]
  | String c s' =>
      if Ascii.eqb c "."%char then EmptyString :: split s'
      else match split s' with
           | [] => [String c EmptyString]
           | w :: ws => String c w :: ws
           end
  end.

(** [v == s] for a string literal [s]. *)
Definition eq_str (v : json) (s : string) : bool :=
  match v with JStr s' => String.eqb s' s | _ => false end.

(** [k in o] for a string [k]: key membership in a [dict], element
    membership in a list, substring test in a [str]. *)
Definition contains (o : json) (k : string) : result bool :=
  match o with
  | JDict d => Ok (bool_decide (is_Some (lookup k d)))
  | JList l => Ok (existsb (fun v => eq_str v k) l)
  | JStr s => Ok (bool_decide (is_Some (String.index 0 k s)))
  | _ => Raise TypeError
  end.

(** [o.items()]. *)
Definition items (o : json) : result (list (string * json)) :=
  match o with
  | JDict d => Ok d
  | _ => Raise AttributeError
  end.

(** The elements of a list, for [len(v)] and [v[i]]. *)
Definition elements (v : json) : list json :=
  match v with JList l => l | _ => [] end.

End Py.

(** ** DimensionCounter *)

(** [_get_dimensions]. *)
Fixpoint _get_dimensions (lst : json) : Z :=
  match lst with
  | JList [] => 1
  | JList (x :: _) => 1 + _get_dimensions x
  | _ => 0
  end.

(** ** Mutation of the node a builder holds a reference to *)

(** A computation of the builder runs on the object [metadata] (or
    [child_metadata]) refers to and may mutate it: it maps the object's
    state to its state afterwards and to the value returned or the
    exception raised. *)
Definition mut (A : Type) : Type := json -> json * result A.

#[export] Instance mut_ret : MRet mut := fun A a s => (s, Ok a).
#[export] Instance mut_bind : MBind mut := fun A B k m s =>
  match m s with
  | (s', Ok a) => k a s'
  | (s', Raise e) => (s', Raise e)
  end.

Section Mut.
Context {A : Type}.

(** A computation that does not touch the node. *)
Definition lift (r : result A) : mut A := fun s => (s, r).

Definition raise (m : message) : mut A :=
  lift (Raise (WekoSwordserverException m)).

(** Run [m] on [node[k]], the rebinding [metadata = metadata[k]]. *)
Definition at_key (k : string) (m : mut A) : mut A := fun s =>
  match Py.getitem s k with
  | Ok c => let (c', r) := m c in (Py.rekey s k c', r)
  | Raise e => (s, Raise e)
  end.

(** Run [m] on [node[i]]. *)
Definition at_index (i : nat) (m : mut A) : mut A := fun s =>
  match Py.index s i with
  | Ok c => let (c', r) := m c in (Py.reindex s i c', r)
  | Raise e => (s, Raise e)
  end.
End Mut.

(** [node.get(k)]. *)
Definition self_get (k : string) : mut json := fun s => (s, Py.get s k).

(** [node[k] = v]. *)
Definition self_setitem (k : string) (v : json) : mut unit := fun s =>
  match Py.setitem s k v with
  | Ok s' => (s', Ok tt)
  | Raise e => (s, Raise e)
  end.

(** [if not node.get(k): node[k] = fresh]. *)
Definition ensure (k : string) (fresh : json) : mut unit :=
  cur ← self_get k;
  if Py.truthy cur then mret tt else self_setitem k fresh.

(** [for i in range(len(json_value)): body(i, json_value[i])], started at
    index [i] with the elements from [i] on. *)
Fixpoint for_range (body : nat -> json -> mut unit) (i : nat)
    (json_value : list json) : mut unit :=
  match json_value with
  | [] => mret tt
  | v :: vs => body i v ;; for_range body (S i) vs
  end.

(** ** TreeBuilder *)

(** The entries of [type_of_item_type_path]: the strings ["object"],
    ["array"] and ["value"]. *)
Inductive kind : Type := Object | Array | Value.

#[export] Instance kind_eq_dec : EqDecision kind.
Proof. solve_decision. Defined.

(** [type_of_item_type_path.count("array")]. *)
Definition count_array (type_of_item_type_path : list kind) : Z :=
  Z.of_nat (length (filter (fun t => t = Array) type_of_item_type_path)).

(** [_create_child_metadata_of_a_property]; the node is [child_metadata]. *)
Fixpoint _create_child_metadata_of_a_property (diff_array : Z)
    (item_map_keys : list string) (type_of_item_type_path : list kind)
    (json_value : json) {struct item_map_keys} : mut unit :=
  let dim_json_value := _get_dimensions json_value in
  match item_map_keys with
  | [k] =>
      if Py.is_none json_value then mret tt else self_setitem k json_value
  | [] => lift (Raise IndexError)
  | _item_map_key :: keys =>
      match type_of_item_type_path with
      | [] => lift (Raise IndexError)
      | Value :: _ =>
          if Py.is_none json_value then mret tt
          else self_setitem _item_map_key json_value
      | Object :: types =>
          ensure _item_map_key (JDict []);;
          at_key _item_map_key
            (_create_child_metadata_of_a_property diff_array keys types
               json_value)
      | Array :: types =>
          if 0 <? diff_array then
            ensure _item_map_key (JList [JDict []]);;
            at_key _item_map_key (at_index 0
              (_create_child_metadata_of_a_property (diff_array - 1) keys
                 types json_value))
          else if dim_json_value =? 0 then raise ArrayRequiresListValue
          else
            ensure _item_map_key
              (JList (replicate (length (Py.elements json_value)) (JDict [])));;
            at_key _item_map_key
              (for_range
                 (fun i v => at_index i
                    (_create_child_metadata_of_a_property diff_array keys
                       types v))
                 0%nat (Py.elements json_value))
      end
  end.

(** The reconciliation that opens [_create_metadata_of_a_property]: the
    value the builder goes on with. *)
Definition reconcile (num_array_type : Z) (json_value : json) : result json :=
  let dim_json_value := _get_dimensions json_value in
  if num_array_type <? dim_json_value then
    if dim_json_value - num_array_type =? 1 then Py.index json_value 0
    else Raise (WekoSwordserverException (TooManyDimensions json_value))
  else Ok json_value.

(** [_create_metadata_of_a_property]; the node is [metadata]. *)
Definition _create_metadata_of_a_property (item_map_key : string)
    (type_of_item_type_path : list kind) (json_value : json) : mut unit :=
  let item_map_keys := Py.split item_map_key in
  let num_array_type := count_array type_of_item_type_path in
  json_value ← lift (reconcile num_array_type json_value);
  let dim_json_value := _get_dimensions json_value in
  let diff_array := num_array_type - dim_json_value in
  match item_map_keys with
  | [k] =>
      if 0 <? dim_json_value then
        first ← lift (Py.index json_value 0);
        self_setitem k first
      else self_setitem k json_value
  | [] => lift (Raise IndexError)
  | _item_map_key :: keys =>
      match type_of_item_type_path with
      | [] => lift (Raise IndexError)
      | Value :: _ => raise TrailingSegmentsAfterValue
      | Object :: types =>
          ensure _item_map_key (JDict []);;
          at_key _item_map_key
            (_create_child_metadata_of_a_property diff_array keys types
               json_value)
      | Array :: types =>
          if 0 <? diff_array then
            ensure _item_map_key (JList [JDict []]);;
            at_key _item_map_key (at_index 0
              (_create_child_metadata_of_a_property (diff_array - 1) keys
                 types json_value))
          else if dim_json_value =? 0 then raise ArrayRequiresListValue
          else
            ensure _item_map_key
              (JList (replicate (length (Py.elements json_value)) (JDict [])));;
            at_key _item_map_key
              (for_range
                 (fun i v => at_index i
                    (_create_child_metadata_of_a_property diff_array keys
                       types v))
                 0%nat (Py.elements json_value))
      end
  end.

(** ** PathResolver, source side *)

(** The loop of [_detect_list], with the call [_detect_dict(json_keys, value,
    _in_list)] it makes on a [dict] element passed as [detect]. *)
Fixpoint detect_list_loop (detect : json -> result json)
    (json_keys : list string) (list_ : list json) : result (list json) :=
  match list_ with
  | [] => Ok []
  | value :: rest =>
      match value with
      | JDict _ =>
          result ← detect value;
          list_result ← detect_list_loop detect json_keys rest;
          Ok (result :: list_result)
      | JList _ => Raise (WekoSwordserverException NestedListUnsupported)
      | _ => Raise (WekoSwordserverException (ValueExhaustedEarly json_keys))
      end
  end.

(** The body of [_detect_list] over the same parameter. *)
Definition detect_list_body (detect : json -> result json)
    (json_keys : list string) (list_ : list json) (_in_list : bool)
  : result json :=
  if negb _in_list then Raise (WekoSwordserverException ListNotIterable)
  else list_result ← detect_list_loop detect json_keys list_; Ok (JList list_result).

(** [_detect_dict]. *)
Fixpoint _detect_dict (json_keys : list string) (dict_ : json)
    (_in_list : bool) {struct json_keys} : result json :=
  match json_keys with
  | [] => Raise IndexError
  | json_key :: rest =>
      value ← Py.get dict_ json_key;
      match value with
      | JNull => Raise (WekoSwordserverException (MissingKey json_key))
      | JDict _ =>
          match rest with
          | [] => Ok value
          | _ => _detect_dict rest value _in_list
          end
      | JList list_ =>
          match rest with
          | [] => Ok value
          | _ =>
              detect_list_body (fun d => _detect_dict rest d true) rest
                list_ true
          end
      | _ =>
          match rest with
          | [] => Ok value
          | _ =>
              Raise (WekoSwordserverException
                       (PathExhaustedEarly value json_key rest))
          end
      end
  end.

(** [_detect_list]. *)
Definition _detect_list (json_keys : list string) (list_ : list json)
    (_in_list : bool) : result json :=
  detect_list_body (fun d => _detect_dict json_keys d _in_list) json_keys
    list_ _in_list.

(** [_get_json_metadata_value]; [None] is [JNull]. *)
Definition _get_json_metadata_value (self_json : json)
    (json_map_key : string) : result json :=
  match Py.split json_map_key with
  | [] => Raise IndexError
  | json_key :: rest =>
      record ← Py.getitem self_json "record";
      metadata ← Py.getitem record "metadata";
      value ← Py.get metadata json_key;
      match value with
      | JNull => Ok JNull
      | JDict _ =>
          match rest with
          | [] => Ok value
          | _ => _detect_dict rest value false
          end
      | JList list_ => _detect_list rest list_ true
      | _ =>
          match rest with
          | [] => Ok value
          | _ =>
              Raise (WekoSwordserverException
                       (PathExhaustedEarly value json_key rest))
          end
      end
  end.

(** ** PathResolver, schema side *)

(** The loop of [_get_type_of_item_type_path]: the kinds appended from
    [current_schema] on for the keys that remain. *)
Fixpoint type_loop (current_schema : json) (item_map_keys : list string)
  : result (list kind) :=
  match item_map_keys with
  | [] => Ok []
  | item_map_key :: rest =>
      defined ← Py.contains current_schema item_map_key;
      if negb defined then
        Raise (WekoSwordserverException (UndefinedInSchema item_map_key))
      else
        entry ← Py.getitem current_schema item_map_key;
        type ← Py.get entry "type";
        if Py.eq_str type "object" then
          current_schema ← Py.get entry "properties";
          types ← type_loop current_schema rest;
          Ok (Object :: types)
        else if Py.eq_str type "array" then
          items ← Py.get entry "items";
          current_schema ← Py.get items "properties";
          types ← type_loop current_schema rest;
          Ok (Array :: types)
        else
          types ← type_loop current_schema rest;
          Ok (Value :: types)
  end.

(** [_get_type_of_item_type_path], on [self.itemtype.schema]. *)
Definition _get_type_of_item_type_path (schema : json)
    (item_map_key : string) : result (list kind) :=
  let item_map_keys := Py.split item_map_key in
  current_schema ← Py.get schema "properties";
  type_of_item_type_path ← type_loop current_schema item_map_keys;
  if negb (Nat.eqb (length type_of_item_type_path) (length item_map_keys))
  then
    Raise (WekoSwordserverException
             (InvalidSchemaPathLength (length type_of_item_type_path)
                (length item_map_keys)))
  else
    match last type_of_item_type_path with
    | None => Raise IndexError
    | Some Value => Ok type_of_item_type_path
    | Some _ => Raise (WekoSwordserverException InvalidSchemaPathLast)
    end.

(** ** RecordMapper and MappingValidator *)

(** The attributes [__init__] sets that the methods read: the source
    document, [self.itemtype.schema], and the source-path table, a [dict]
    from rule id to dotted path whose [items()] order is the rule order. *)
Record WekoSwordMapper : Type := {
  self_json : json;
  self_itemtype_schema : json;
  self_json_map : list (string * string)
}.

Module Mapper.
Section Methods.

(** The methods inherited from [JsonMapper], which lives in
    [invenio_oaiharvester]: any functions of the object that return or
    raise.  [datestamp] stands for [str(self.datestamp())], and the
    target-path table [_create_item_map] returns is only indexed and
    tested for membership. *)
Variable is_deleted : WekoSwordMapper -> result bool.
Variable datestamp : WekoSwordMapper -> result string.
Variable _create_item_map : WekoSwordMapper -> result (gmap string string).

Variable self : WekoSwordMapper.

(** The body of the loop of [_create_metadata] for one item [(k, v)] of
    [json_map]; the node is [metadata]. *)
Definition create_metadata_step (item_map : gmap string string)
    (k v : string) : mut unit :=
  json_value ← lift (_get_json_metadata_value (self_json self) v);
  if Py.is_none json_value then mret tt
  else
    item_map_key ← lift (match item_map !! k with
                         | Some path => Ok path
                         | None => Raise KeyError
                         end);
    type_of_item_type_path ←
      lift (_get_type_of_item_type_path (self_itemtype_schema self)
              item_map_key);
    _create_metadata_of_a_property item_map_key type_of_item_type_path
      json_value.

Fixpoint create_metadata_loop (item_map : gmap string string)
    (json_map : list (string * string)) : mut unit :=
  match json_map with
  | [] => mret tt
  | (k, v) :: rest =>
      create_metadata_step item_map k v;;
      create_metadata_loop item_map rest
  end.

(** [_create_metadata]. *)
Definition _create_metadata (item_map : gmap string string) : result json :=
  match create_metadata_loop item_map (self_json_map self) (JDict []) with
  | (metadata, Ok _) => Ok metadata
  | (_, Raise e) => Raise e
  end.

(** The loop of [map] that collects the properties titled ["File"]. *)
Fixpoint files_info_loop (metadata : json)
    (properties : list (string * json)) : result (list json) :=
  match properties with
  | [] => Ok []
  | (k, v) :: rest =>
      title ← Py.get v "title";
      if Py.eq_str title "File" then
        items ← Py.get metadata k;
        files_info ← files_info_loop metadata rest;
        Ok (JDict [("key", JStr k); ("items", items)] :: files_info)
      else files_info_loop metadata rest
  end.

(** [{**res, **other}] on the bindings of [other]. *)
Definition update (res other : list (string * json))
  : list (string * json) :=
  foldl (fun acc kv => Py.store kv.1 kv.2 acc) res other.

(** [map]. *)
Definition map : result json :=
  deleted ← is_deleted self;
  if (deleted : bool) then Ok (JDict [])
  else
    pubdate ← datestamp self;
    record ← Py.get (self_json self) "record";
    header ← Py.get record "header";
    publish_status ← Py.get header "publish_status";
    record ← Py.get (self_json self) "record";
    header ← Py.get record "header";
    indextree ← Py.get header "indextree";
    let res := [("pubdate", JStr pubdate);
                ("publish_status", publish_status);
                ("path", JList [indextree])] in
    item_map ← _create_item_map self;
    metadata ← _create_metadata item_map;
    properties ← Py.get (self_itemtype_schema self) "properties";
    properties ← Py.items properties;
    files_info ← files_info_loop metadata properties;
    let files_info := [("files_info", JList files_info)] in
    metadata ← Py.items metadata;
    Ok (JDict (update (update res files_info) metadata)).

(** The list [error_msg] that [validate_mapping] builds. *)
Fixpoint error_msg (item_map : gmap string string)
    (json_map : list (string * string)) : list string :=
  match json_map with
  | [] => []
  | (k, v) :: rest =>
      if bool_decide (is_Some (item_map !! k)) then error_msg item_map rest
      else (k ++ " is not defined.") :: error_msg item_map rest
  end.

(** [validate_mapping]; it returns [None]. *)
Definition validate_mapping : result unit :=
  item_map ← _create_item_map self;
  match error_msg item_map (self_json_map self) with
  | [] => Ok tt
  | msgs => Raise (WekoSwordserverException (ValidationBatchFailed msgs))
  end.

(** [is_valid_mapping]: only the module's exception is caught. *)
Definition is_valid_mapping : result bool :=
  match validate_mapping with
  | Ok _ => Ok true
  | Raise (WekoSwordserverException _) => Ok false
  | Raise e => Raise e
  end.

End Methods.
End Mapper.

(** * Vocabulary of the properties *)

(** A schema whose top level declares two scalar properties. *)
Definition two_scalars_schema : json :=
  JDict [("properties",
          JDict [("title", JDict [("type", JStr "string")]);
                 ("lang", JDict [("type", JStr "string")])])].

(** A record whose metadata holds a list of scalars at the top level. *)
Definition scalar_list_record : json :=
  JDict [("record",
          JDict [("metadata", JDict [("k", JList [JStr "x"; JStr "y"])])])].

(** A document marked as deleted in its header, read the way the
    harvester's mappers do, with a timestamp that cannot be read and an item
    map that cannot be built. *)
Definition deleted_record : WekoSwordMapper := {|
  self_json :=
    JDict [("record",
            JDict [("header", JDict [("@status", JStr "deleted")])])];
  self_itemtype_schema := JNull;
  self_json_map := [("r1", "a.b")]
|}.

Definition header_status_deleted (self : WekoSwordMapper) : result bool :=
  record ← Py.get (self_json self) "record";
  header ← Py.get record "header";
  status ← Py.get header "@status";
  Ok (Py.eq_str status "deleted").

(** The message of one missing rule id. *)
Definition not_defined (id : string) : string := id ++ " is not defined.".

(** The rule ids of the source-path table that the target-path table lacks,
    in the order of the source-path table. *)
Definition missing_ids (item_map : gmap string string)
    (json_map : list (string * string)) : list string :=
  filter (fun id => item_map !! id = None) json_map.*1.

(** The table of the specification: rules r1, r2, r3 have a source path and
    only r1 and r3 a target path. *)
Definition three_rules : WekoSwordMapper := {|
  self_json := JDict [];
  self_itemtype_schema := JDict [];
  self_json_map := [("r1", "a"); ("r2", "b"); ("r3", "c")]
|}.

Definition two_targets : gmap string string :=
  <["r1" := "x"]> (<["r3" := "z"]> ∅).

(** What the builder makes of a fresh [{}] for a last key [q] and a value
    [v]: the [is not None] guard leaves it empty for [None]. *)
Definition leaf (q : string) (v : json) : json :=
  if Py.is_none v then JDict [] else JDict [(q, v)].

(** A list keeps its length, a dict its keys, and any other object is left
    as it is. *)
Definition extends (s s' : json) : Prop :=
  match s with
  | JList l => exists l', s' = JList l' /\ length l' = length l
  | JDict d => exists d', s' = JDict d' /\ (length d <= length d')%nat
  | _ => s' = s
  end.

Definition preserving {A} (m : mut A) : Prop :=
  forall s s' r, m s = (s', r) -> extends s s'.

(** Running [m] again on the node a successful run left changes nothing. *)
Definition idempotent (m : mut unit) : Prop :=
  forall s s', m s = (s', Ok tt) -> m s' = (s', Ok tt).

(** The value a path of keys reaches by going from dict to dict. *)
Fixpoint get_path (keys : list string) (v : json) : option json :=
  match keys with
  | [] => Some v
  | k :: rest =>
      match v with
      | JDict d =>
          match Py.lookup k d with
          | Some w => get_path rest w
          | None => None
          end
      | _ => None
      end
  end.

(** The node after a run is the node before, or the dict before with the
    one key [k] stored anew. *)
Definition writes_only (k : string) (s s' : json) : Prop :=
  s' = s \/ exists d v, s = JDict d /\ s' = JDict (Py.store k v d).

(** A computation that raises nothing but Python's built-in exceptions. *)
Definition builtin_only (m : mut unit) : Prop :=
  forall s s' r msg, m s = (s', r) -> r <> Raise (WekoSwordserverException msg).

(** The mapper object with another source-path table. *)
Definition with_json_map (self : WekoSwordMapper)
    (json_map : list (string * string)) : WekoSwordMapper := {|
  self_json := self_json self;
  self_itemtype_schema := self_itemtype_schema self;
  self_json_map := json_map
|}.

(** Whether the source path of a rule resolves to something else than
    [None], an exception included. *)
Definition has_source (self : WekoSwordMapper) (rule : string * string)
  : bool :=
  match _get_json_metadata_value (self_json self) rule.2 with
  | Ok JNull => false
  | _ => true
  end.

(** The entry of [files_info] for the property [k]. *)
Definition file_entry (metadata : list (string * json)) (k : string) : json :=
  JDict [("key", JStr k); ("items", default JNull (Py.lookup k metadata))].

(** Whether a property of the schema is titled ["File"]. *)
Definition titled_file (property : string * json) : bool :=
  match property.2 with
  | JDict d => Py.eq_str (default JNull (Py.lookup "title" d)) "File"
  | _ => false
  end.

(** The keys [map] sets itself. *)
Definition fixed_keys : list string :=
  ["pubdate"; "publish_status"; "path"; "files_info"].

(** A harvested record with two rules, the second of which targets the
    key [pubdate] that [map] also sets. *)
Definition harvested_record : WekoSwordMapper := {|
  self_json :=
    JDict [("record",
            JDict [("header", JDict [("publish_status", JStr "0");
                                     ("indextree", JNum 7)]);
                   ("metadata", JDict [("t", JStr "x");
                                       ("d", JStr "2020")])])];
  self_itemtype_schema :=
    JDict [("properties",
            JDict [("title", JDict [("type", JStr "string")]);
                   ("pubdate", JDict [("type", JStr "string")])])];
  self_json_map := [("r1", "t"); ("r2", "d")]
|}.

Definition harvested_targets : gmap string string :=
  <["r1" := "title"]> (<["r2" := "pubdate"]> ∅).

(** The object two sibling rules leave for one pair of values. *)
Definition pair_entry (q r : string) (v w : json) : json :=
  JDict [(q, v); (r, w)].

(** [_create_metadata_of_a_property] with a computation [other] in the
    place of the one [raise] of its own array branch, the one under
    [diff_array == 0] and [dim_json_value == 0]; everything else is the
    function as it is. *)
Definition create_metadata_with_top_raise (other : mut unit)
    (item_map_key : string) (type_of_item_type_path : list kind)
    (json_value : json) : mut unit :=
  let item_map_keys := Py.split item_map_key in
  let num_array_type := count_array type_of_item_type_path in
  json_value ← lift (reconcile num_array_type json_value);
  let dim_json_value := _get_dimensions json_value in
  let diff_array := num_array_type - dim_json_value in
  match item_map_keys with
  | [k] =>
      if 0 <? dim_json_value then
        first ← lift (Py.index json_value 0);
        self_setitem k first
      else self_setitem k json_value
  | [] => lift (Raise IndexError)
  | _item_map_key :: keys =>
      match type_of_item_type_path with
      | [] => lift (Raise IndexError)
      | Value :: _ => raise TrailingSegmentsAfterValue
      | Object :: types =>
          ensure _item_map_key (JDict []);;
          at_key _item_map_key
            (_create_child_metadata_of_a_property diff_array keys types
               json_value)
      | Array :: types =>
          if 0 <? diff_array then
            ensure _item_map_key (JList [JDict []]);;
            at_key _item_map_key (at_index 0
              (_create_child_metadata_of_a_property (diff_array - 1) keys
                 types json_value))
          else if dim_json_value =? 0 then other
          else
            ensure _item_map_key
              (JList (replicate (length (Py.elements json_value)) (JDict [])));;
            at_key _item_map_key
              (for_range
                 (fun i v => at_index i
                    (_create_child_metadata_of_a_property diff_array keys
                       types v))
                 0%nat (Py.elements json_value))
      end
  end.

(** * Properties *)

(** ** DimensionCounter *)

(** C5. A value that is not a list has dimension 0, the empty list has
    dimension 1, and a non-empty list has one more than its first element,
    whatever the other elements are; so [[1,2],"x"] has dimension 2. *)
Theorem get_dimensions_first_element :
  (forall v, Py.is_list v = false -> _get_dimensions v = 0) /\
  _get_dimensions (JList []) = 1 /\
  (forall x rest, _get_dimensions (JList (x :: rest)) = 1 + _get_dimensions x) /\
  _get_dimensions (JList [JList [JNum 1; JNum 2]; JStr "x"]) = 2.
Proof.
  split; [|split; [|split]]; try reflexivity.
  intros v Hv. destruct v as [| | | |l|]; try reflexivity. discriminate Hv.
Qed.

Lemma get_dimensions_first_element_witness :
  _get_dimensions (JStr "x") = 0 /\
  _get_dimensions (JList [JList [JNum 1; JNum 2]; JList [JNum 3; JNum 4]]) = 2.
Proof.
  split.
  - apply (proj1 get_dimensions_first_element). reflexivity.
  - rewrite (proj1 (proj2 (proj2 get_dimensions_first_element))). reflexivity.
Defined.

Lemma get_dimensions_nonneg v : 0 <= _get_dimensions v.
Proof.
  revert v. fix IH 1. intros [| | | |l|]; simpl; try lia.
  destruct l as [|x l]; [lia|]. specialize (IH x). lia.
Qed.

Lemma get_dimensions_list v : 0 < _get_dimensions v <-> Py.is_list v = true.
Proof.
  destruct v as [| | | |l|]; simpl; try (split; [lia|discriminate]).
  split; [reflexivity|]. intros _.
  destruct l as [|x l]; [lia|]. pose proof (get_dimensions_nonneg x). lia.
Qed.

(** ** PathResolver, schema side *)

(** After a scalar declaration the loop goes on with the next key in the
    schema level it is at. *)
Lemma type_loop_scalar d k rest entry type :
  Py.lookup k d = Some entry ->
  Py.get entry "type" = Ok type ->
  Py.eq_str type "object" = false ->
  Py.eq_str type "array" = false ->
  type_loop (JDict d) (k :: rest) =
    types ← type_loop (JDict d) rest; Ok (Value :: types).
Proof.
  intros Hk Hty Hobj Harr. cbn [type_loop Py.contains Py.getitem].
  rewrite Hk. cbn. rewrite Hty. cbn. rewrite Hobj, Harr. reflexivity.
Qed.

(** C1. The path "title.lang" names a scalar property and then a sibling of
    it.  Resolution does not stop at the scalar: it looks the next segment
    up in the same schema level and returns the kinds [value, value], with a
    [value] before the last position, where the specification asks for a
    failure. *)
Theorem type_path_value_before_last :
  _get_type_of_item_type_path two_scalars_schema "title.lang"
  = Ok [Value; Value].
Proof. vm_compute. reflexivity. Qed.

(** ** PathResolver, source side *)

(** The loop of [_detect_list] rejects a list that starts with a scalar
    whatever keys remain, none included. *)
Lemma detect_list_scalar_head json_keys x rest in_list :
  Py.is_dict x = false -> Py.is_list x = false ->
  _detect_list json_keys (x :: rest) in_list =
    Raise (WekoSwordserverException
             (if in_list then ValueExhaustedEarly json_keys
              else ListNotIterable)).
Proof.
  intros Hd Hl. unfold _detect_list, detect_list_body.
  destruct in_list; simpl; [|reflexivity].
  destruct x; simpl; try reflexivity; discriminate.
Qed.

(** C2. The one-segment path "k" reaches the list ["x", "y"] with no
    segment left, and the resolver raises the module's exception, with the
    empty list of keys still to get, instead of returning the list. *)
Theorem top_level_scalar_list_rejected :
  _get_json_metadata_value scalar_list_record "k"
  = Raise (WekoSwordserverException (ValueExhaustedEarly [])).
Proof. vm_compute. reflexivity. Qed.

(** The same list one level down is returned as it is: [_detect_dict] tests
    [len(json_keys) == 1] before it enters list mode. *)
Lemma nested_scalar_list_returned :
  _get_json_metadata_value
    (JDict [("record",
       JDict [("metadata",
         JDict [("a", JDict [("k", JList [JStr "x"; JStr "y"])])])])])
    "a.k"
  = Ok (JList [JStr "x"; JStr "y"]).
Proof. vm_compute. reflexivity. Qed.

(** ** RecordMapper *)

(** C9. When the inherited [is_deleted] answers true, [map] returns the
    empty dict, whatever the document, the schema, the two path tables and
    the other inherited methods are, those that would raise included. *)
Theorem map_deleted_is_empty
    (is_deleted : WekoSwordMapper -> result bool)
    (datestamp : WekoSwordMapper -> result string)
    (_create_item_map : WekoSwordMapper -> result (gmap string string))
    (self : WekoSwordMapper) :
  is_deleted self = Ok true ->
  Mapper.map is_deleted datestamp _create_item_map self = Ok (JDict []).
Proof. intros Hdel. unfold Mapper.map. rewrite Hdel. reflexivity. Qed.

Lemma map_deleted_is_empty_witness :
  Mapper.map header_status_deleted (fun _ => Raise AttributeError)
    (fun _ => Raise KeyError) deleted_record = Ok (JDict []).
Proof. apply map_deleted_is_empty. reflexivity. Defined.

(** ** MappingValidator *)

Lemma string_length_app (a b : string) :
  String.length (a ++ b) = (String.length a + String.length b)%nat.
Proof. induction a as [|c a IH]; simpl; [reflexivity|]. rewrite IH. reflexivity. Qed.

Lemma string_app_cancel_r (s a b : string) : a ++ s = b ++ s -> a = b.
Proof.
  revert b. induction a as [|c a IH]; intros [|c' b] Heq; simpl in Heq.
  - reflexivity.
  - apply (f_equal String.length) in Heq.
    rewrite !string_length_app in Heq. cbn [String.length] in Heq. lia.
  - apply (f_equal String.length) in Heq.
    rewrite !string_length_app in Heq. cbn [String.length] in Heq. lia.
  - injection Heq as -> Heq. f_equal. apply IH, Heq.
Qed.

#[export] Instance not_defined_inj : Inj (=) (=) not_defined.
Proof. intros a b. apply string_app_cancel_r. Qed.

Lemma error_msg_missing_ids item_map json_map :
  Mapper.error_msg item_map json_map
  = not_defined <$> missing_ids item_map json_map.
Proof.
  unfold missing_ids.
  induction json_map as [|[k v] rest IH]; [reflexivity|].
  cbn [Mapper.error_msg fmap list_fmap fst]. rewrite IH.
  destruct (item_map !! k) as [path|] eqn:Hk.
  - rewrite bool_decide_eq_true_2 by eauto.
    rewrite filter_cons_False by (rewrite Hk; discriminate). reflexivity.
  - rewrite bool_decide_eq_false_2 by (intros [? ?]; discriminate).
    rewrite filter_cons_True by exact Hk. reflexivity.
Qed.

(** C8. With the source-path table [json_map] and the target-path table
    [item_map]: the list of violations is the message "{id} is not defined."
    of each id of [json_map] that [item_map] lacks, each once; validation
    raises that whole list in one exception when it is not empty and
    returns when it is; and [is_valid_mapping] is true exactly when the list
    is empty. *)
Theorem validate_mapping_collects_all
    (_create_item_map : WekoSwordMapper -> result (gmap string string))
    (self : WekoSwordMapper) (item_map : gmap string string) :
  _create_item_map self = Ok item_map ->
  NoDup (self_json_map self).*1 ->
  let violations := Mapper.error_msg item_map (self_json_map self) in
  violations = not_defined <$> missing_ids item_map (self_json_map self) /\
  (forall id, id ∈ missing_ids item_map (self_json_map self) <->
     id ∈ (self_json_map self).*1 /\ item_map !! id = None) /\
  NoDup violations /\
  Mapper.validate_mapping _create_item_map self
    = (if bool_decide (violations = []) then Ok tt
       else Raise (WekoSwordserverException
                     (ValidationBatchFailed violations))) /\
  (missing_ids item_map (self_json_map self) = [] <-> violations = []) /\
  Mapper.is_valid_mapping _create_item_map self
    = Ok (bool_decide (violations = [])).
Proof.
  intros Hmap Hnodup violations.
  assert (Hv : violations
               = not_defined <$> missing_ids item_map (self_json_map self))
    by apply error_msg_missing_ids.
  split; [exact Hv|]. split.
  { intros id. unfold missing_ids. rewrite list_elem_of_filter. tauto. }
  split.
  { rewrite Hv. apply (NoDup_fmap_2 _). unfold missing_ids.
    apply NoDup_filter, Hnodup. }
  assert (Hval : Mapper.validate_mapping _create_item_map self
    = (if bool_decide (violations = []) then Ok tt
       else Raise (WekoSwordserverException
                     (ValidationBatchFailed violations)))).
  { unfold Mapper.validate_mapping. rewrite Hmap. cbn.
    fold violations. destruct violations; reflexivity. }
  split; [exact Hval|]. split.
  { rewrite Hv. split; [intros ->; reflexivity|].
    intros Hnil. apply fmap_nil_inv in Hnil. exact Hnil. }
  unfold Mapper.is_valid_mapping. rewrite Hval.
  destruct violations; reflexivity.
Qed.

Lemma validate_mapping_collects_all_witness :
  Mapper.validate_mapping (fun _ => Ok two_targets) three_rules
    = Raise (WekoSwordserverException
               (ValidationBatchFailed ["r2 is not defined."])) /\
  Mapper.is_valid_mapping (fun _ => Ok two_targets) three_rules = Ok false.
Proof.
  destruct (validate_mapping_collects_all (fun _ => Ok two_targets)
              three_rules two_targets eq_refl)
    as (_ & _ & _ & Hval & _ & Hvalid).
  - apply (bool_decide_unpack _). vm_compute. exact I.
  - split; [rewrite Hval | rewrite Hvalid]; reflexivity.
Defined.

(** ** TreeBuilder: reconciliation *)

Lemma count_array_nonneg types : 0 <= count_array types.
Proof. unfold count_array. lia. Qed.

(** A value of dimension at least 2 is a list with a first element. *)
Lemma get_dimensions_ge_2 v :
  2 <= _get_dimensions v -> exists x rest, v = JList (x :: rest).
Proof.
  destruct v as [| | | |[|x rest]|]; simpl; try lia. intros _. eauto.
Qed.

Lemma reconcile_collapse a x rest :
  _get_dimensions (JList (x :: rest)) - a = 1 ->
  reconcile a (JList (x :: rest)) = Ok x /\ reconcile a x = Ok x.
Proof.
  intros Hd. unfold reconcile.
  assert (Hx : _get_dimensions x = a) by (simpl in Hd; lia).
  rewrite Hd, Hx.
  replace (a <? _get_dimensions (JList (x :: rest))) with true
    by (symmetry; apply Z.ltb_lt; lia).
  rewrite Z.ltb_irrefl. split; reflexivity.
Qed.

Lemma reconcile_too_many a v :
  _get_dimensions v - a > 1 ->
  reconcile a v = Raise (WekoSwordserverException (TooManyDimensions v)).
Proof.
  intros Hd. unfold reconcile.
  replace (a <? _get_dimensions v) with true by (symmetry; apply Z.ltb_lt; lia).
  replace (_get_dimensions v - a =? 1) with false
    by (symmetry; apply Z.eqb_neq; lia).
  reflexivity.
Qed.

(** The builder is the reconciliation followed by a write that only
    depends on the reconciled value. *)
Lemma create_metadata_reconciled path types v w :
  reconcile (count_array types) v = Ok w ->
  reconcile (count_array types) w = Ok w ->
  forall metadata,
    _create_metadata_of_a_property path types v metadata
    = _create_metadata_of_a_property path types w metadata.
Proof.
  intros Hv Hw metadata. unfold _create_metadata_of_a_property.
  unfold mbind at 1 3, mut_bind, lift. rewrite Hv, Hw. reflexivity.
Qed.

(** C4, where the empty list is mapped to a path without array: its
    dimension is 1, one more than the number of arrays, but it has no first
    element to go on with and the builder ends with an index error. *)
Lemma collapse_empty_list_counterexample :
  _get_dimensions (JList []) - count_array [Value] = 1 /\
  (forall x, Py.index (JList []) 0 <> Ok x) /\
  _create_metadata_of_a_property "p" [Value] (JList []) (JDict [])
  = (JDict [], Raise IndexError).
Proof.
  split; [reflexivity|]. split; [|vm_compute; reflexivity].
  intros x. simpl. discriminate.
Qed.

(** C4, amended.  With [d] the dimension of the value and [a] the number
    of arrays among the kinds: when [d - a = 1] and the value has a first
    element, the builder does exactly what it does on that first element
    alone, whose dimension is [a]; the value always has a first element when
    [a >= 1]; and when [d - a > 1] the builder raises the module's
    exception and leaves the output tree as it was. *)
Theorem reconciliation_collapses_once path types v metadata :
  let d := _get_dimensions v in
  let a := count_array types in
  (d - a = 1 -> forall x rest, v = JList (x :: rest) ->
     _get_dimensions x = a /\
     _create_metadata_of_a_property path types v metadata
     = _create_metadata_of_a_property path types x metadata) /\
  (d - a = 1 -> 1 <= a -> exists x rest, v = JList (x :: rest)) /\
  (d - a > 1 ->
     _create_metadata_of_a_property path types v metadata
     = (metadata, Raise (WekoSwordserverException (TooManyDimensions v)))).
Proof.
  intros d a. subst d a. split; [|split].
  - intros Hd x rest ->. split; [simpl in Hd; lia|].
    destruct (reconcile_collapse _ x rest Hd) as [Hv Hx].
    apply create_metadata_reconciled; assumption.
  - intros Hd Ha. apply get_dimensions_ge_2. lia.
  - intros Hd. unfold _create_metadata_of_a_property.
    unfold mbind at 1, mut_bind, lift.
    rewrite (reconcile_too_many _ _ Hd). reflexivity.
Qed.

Lemma reconciliation_collapses_once_witness :
  _create_metadata_of_a_property "p.q" [Array; Value]
    (JList [JList [JStr "x"; JStr "y"]; JList [JStr "z"]]) (JDict [])
  = _create_metadata_of_a_property "p.q" [Array; Value]
      (JList [JStr "x"; JStr "y"]) (JDict []) /\
  _create_metadata_of_a_property "p.q" [Array; Value]
    (JList [JList [JList [JStr "x"]]]) (JDict [])
  = (JDict [],
     Raise (WekoSwordserverException
              (TooManyDimensions (JList [JList [JList [JStr "x"]]])))).
Proof.
  split.
  - refine (proj2 (proj1 (reconciliation_collapses_once "p.q" [Array; Value]
      (JList [JList [JStr "x"; JStr "y"]; JList [JStr "z"]]) (JDict []))
      _ _ _ eq_refl)).
    reflexivity.
  - apply (proj2 (proj2 (reconciliation_collapses_once "p.q" [Array; Value]
      (JList [JList [JList [JStr "x"]]]) (JDict [])))).
    reflexivity.
Defined.

(** ** Writes into a dict *)

Lemma lookup_store k v d : Py.lookup k (Py.store k v d) = Some v.
Proof.
  induction d as [|[k' v'] d IH]; simpl.
  - rewrite String.eqb_refl. reflexivity.
  - destruct (String.eqb k k') eqn:Hk; simpl.
    + rewrite String.eqb_refl. reflexivity.
    + rewrite Hk. exact IH.
Qed.

Lemma store_store k v w d : Py.store k v (Py.store k w d) = Py.store k v d.
Proof.
  induction d as [|[k' v'] d IH]; simpl.
  - rewrite String.eqb_refl. reflexivity.
  - destruct (String.eqb k k') eqn:Hk; simpl.
    + rewrite String.eqb_refl. reflexivity.
    + rewrite Hk, IH. reflexivity.
Qed.

Lemma store_lookup_id k v d : Py.lookup k d = Some v -> Py.store k v d = d.
Proof.
  induction d as [|[k' v'] d IH]; simpl; [discriminate|].
  destruct (String.eqb k k') eqn:Hk.
  - apply String.eqb_eq in Hk as ->. intros [= ->]. reflexivity.
  - intros Hl. rewrite IH by exact Hl. reflexivity.
Qed.

Lemma store_absent k v d : Py.lookup k d = None -> Py.store k v d = (d ++ [(k, v)])%list.
Proof.
  induction d as [|[k' v'] d IH]; simpl; [reflexivity|].
  destruct (String.eqb k k'); [discriminate|].
  intros Hl. rewrite IH by exact Hl. reflexivity.
Qed.

Lemma store_length k v d : (length d <= length (Py.store k v d))%nat.
Proof.
  induction d as [|[k' v'] d IH]; simpl; [lia|].
  destruct (String.eqb k k'); simpl; lia.
Qed.

(** ** TreeBuilder: writes *)

Section Run.
Context {A B : Type}.

Lemma run_bind (m : mut A) (k : A -> mut B) s :
  (m ≫= k) s
  = match m s with
    | (s', Ok a) => k a s'
    | (s', Raise e) => (s', Raise e)
    end.
Proof. reflexivity. Qed.

Lemma run_lift (r : result A) (k : A -> mut B) s :
  (lift r ≫= k) s
  = match r with Ok a => k a s | Raise e => (s, Raise e) end.
Proof. rewrite run_bind. unfold lift. destruct r; reflexivity. Qed.

Lemma run_at_key k (m : mut A) d c :
  Py.lookup k d = Some c ->
  at_key k m (JDict d) = let (c', r) := m c in (JDict (Py.store k c' d), r).
Proof. intros Hk. unfold at_key. cbn [Py.getitem]. rewrite Hk. reflexivity. Qed.

Lemma run_at_index i (m : mut A) (l : list json) c :
  l !! i = Some c ->
  at_index i m (JList l) = let (c', r) := m c in (JList (<[i:=c']> l), r).
Proof. intros Hi. unfold at_index. cbn [Py.index]. rewrite Hi. reflexivity. Qed.
End Run.

Lemma run_ensure_absent k fresh d :
  Py.lookup k d = None ->
  ensure k fresh (JDict d) = (JDict (Py.store k fresh d), Ok tt).
Proof.
  intros Hk. unfold ensure. rewrite run_bind. unfold self_get.
  cbn [Py.get]. rewrite Hk. reflexivity.
Qed.

Lemma run_ensure_falsy k fresh d c :
  Py.lookup k d = Some c -> Py.truthy c = false ->
  ensure k fresh (JDict d) = (JDict (Py.store k fresh d), Ok tt).
Proof.
  intros Hk Hc. unfold ensure. rewrite run_bind. unfold self_get.
  cbn [Py.get]. rewrite Hk. cbn [from_option id]. rewrite Hc. reflexivity.
Qed.

Lemma run_ensure_truthy k fresh d c :
  Py.lookup k d = Some c -> Py.truthy c = true ->
  ensure k fresh (JDict d) = (JDict d, Ok tt).
Proof.
  intros Hk Hc. unfold ensure. rewrite run_bind. unfold self_get.
  cbn [Py.get]. rewrite Hk. cbn [from_option id]. rewrite Hc. reflexivity.
Qed.

Lemma create_child_last diff q types v child :
  _create_child_metadata_of_a_property diff [q] types v child
  = if Py.is_none v then (child, Ok tt) else self_setitem q v child.
Proof. simpl. destruct (Py.is_none v); reflexivity. Qed.

(** The loop over the values [vs] along a last key [q], on a list that
    holds a fresh [{}] at each index from [i] on. *)
Lemma for_range_leaves diff q types vs : forall done_,
  for_range
    (fun i v => at_index i
       (_create_child_metadata_of_a_property diff [q] types v))
    (length done_) vs
    (JList (done_ ++ replicate (length vs) (JDict []))%list)
  = (JList (done_ ++ (leaf q <$> vs))%list, Ok tt).
Proof.
  induction vs as [|v vs IH]; intros done_; [reflexivity|].
  cbn [for_range length replicate fmap list_fmap].
  rewrite run_bind, (run_at_index _ _ _ (JDict []))
    by (apply list_lookup_middle; reflexivity).
  rewrite create_child_last.
  assert (Hleaf :
    (if Py.is_none v then (JDict [], Ok tt) else self_setitem q v (JDict []))
    = (leaf q v, Ok tt)).
  { unfold leaf. destruct (Py.is_none v); reflexivity. }
  rewrite Hleaf. cbn [Py.reindex].
  rewrite insert_app_r_alt by lia. rewrite Nat.sub_diag.
  change (<[0%nat:=leaf q v]> (JDict [] :: replicate (length vs) (JDict [])))
    with (leaf q v :: replicate (length vs) (JDict [])).
  specialize (IH (done_ ++ [leaf q v])%list).
  rewrite length_app in IH. cbn [length] in IH.
  replace (length done_ + 1)%nat with (S (length done_)) in IH by lia.
  rewrite <- !(assoc_L (++)) in IH. exact IH.
Qed.

(** The single wrap of a value [x] of dimension 0, whatever [x] is: the
    list and its one object are created, and the object gets the leaf
    unless the guard on [None] skips the write. *)
Lemma single_wrap_run path p q x d :
  Py.split path = [p; q] ->
  _get_dimensions x = 0 ->
  Py.lookup p d = None ->
  _create_metadata_of_a_property path [Array; Value] x (JDict d)
  = (JDict (d ++ [(p, JList [if Py.is_none x then JDict []
                            else JDict [(q, x)]])])%list,
     Ok tt).
Proof.
  intros Hpath Hdim Hp.
  unfold _create_metadata_of_a_property. rewrite Hpath.
  change (count_array [Array; Value]) with 1.
  assert (Hrec : reconcile 1 x = Ok x)
    by (unfold reconcile; rewrite Hdim; reflexivity).
  rewrite run_lift, Hrec, Hdim. change (0 <? 1 - 0) with true. cbv iota.
  rewrite run_bind, run_ensure_absent by exact Hp.
  rewrite (run_at_key _ _ _ _ (lookup_store _ _ _)).
  rewrite (run_at_index 0 _ [JDict []] (JDict [])) by reflexivity.
  rewrite create_child_last.
  destruct (Py.is_none x); unfold self_setitem;
    cbn [Py.setitem Py.store insert list_insert];
    rewrite store_store, store_absent by exact Hp; reflexivity.
Qed.

(** [None] is how the resolver reports a source path without a value, and
    the loop over the rules goes on to the next rule for it: the builder is
    not called. *)
Lemma create_metadata_step_none self item_map k v s :
  _get_json_metadata_value (self_json self) v = Ok JNull ->
  Mapper.create_metadata_step self item_map k v s = (s, Ok tt).
Proof.
  intros Hnone. unfold Mapper.create_metadata_step.
  rewrite run_lift, Hnone. reflexivity.
Qed.

(** With one array among the kinds, the value of dimension 0 the builder
    goes on with is the extracted value itself: a collapse leaves a list. *)
Lemma reconciled_scalar_is_extracted v w :
  reconcile (count_array [Array; Value]) v = Ok w ->
  _get_dimensions w = 0 ->
  w = v.
Proof.
  change (count_array [Array; Value]) with 1. unfold reconcile.
  destruct (1 <? _get_dimensions v); [|intros [= <-]; reflexivity].
  destruct (_get_dimensions v - 1 =? 1) eqn:Hone; [|discriminate].
  apply Z.eqb_eq in Hone.
  destruct v as [| | | |[|x rest]|]; cbn in Hone; try lia.
  cbn. intros [= <-] Hw. lia.
Qed.

(** C7.  A scalar value [x], of dimension 0, written along the two
    segments [p.q] with kinds [array, value] into a tree without [p] adds,
    at [p], a list with the single object [{q: x}].  A value is not [None]:
    [None] stands for the absence of a value, for which the builder is not
    called. *)
Theorem single_wrap path p q x d :
  Py.split path = [p; q] ->
  _get_dimensions x = 0 ->
  x <> JNull ->
  Py.lookup p d = None ->
  _create_metadata_of_a_property path [Array; Value] x (JDict d)
  = (JDict (d ++ [(p, JList [JDict [(q, x)]])])%list, Ok tt).
Proof.
  intros Hpath Hdim Hx Hp.
  rewrite (single_wrap_run path p q x d Hpath Hdim Hp).
  destruct x; try reflexivity. contradiction.
Qed.

Lemma single_wrap_witness :
  _create_metadata_of_a_property "p.q" [Array; Value] (JStr "x") (JDict [])
  = (JDict [("p", JList [JDict [("q", JStr "x")]])], Ok tt).
Proof.
  apply (single_wrap "p.q" "p" "q" (JStr "x") []);
    [reflexivity | reflexivity | discriminate | reflexivity].
Defined.

(** C6, for a list with a [None] element: the object created for that
    element stays empty. *)
Lemma replicate_none_counterexample :
  _get_dimensions (JList [JStr "x"; JNull]) = 1 /\
  _create_metadata_of_a_property "p.q" [Array; Value]
    (JList [JStr "x"; JNull]) (JDict [])
  = (JDict [("p", JList [JDict [("q", JStr "x")]; JDict []])], Ok tt) /\
  JDict [] <> JDict [("q", JNull)].
Proof. split; [reflexivity|]. split; [vm_compute; reflexivity | discriminate]. Qed.

(** C6, amended.  A list [vs] of dimension 1 written along the two
    segments [p.q] with kinds [array, value] into a tree without [p] adds,
    at [p], a list of [len(vs)] objects, the i-th being [{q: vs[i]}], or the
    empty object when [vs[i]] is [None]. *)
Theorem replicate_per_element path p q vs d :
  Py.split path = [p; q] ->
  _get_dimensions (JList vs) = 1 ->
  Py.lookup p d = None ->
  _create_metadata_of_a_property path [Array; Value] (JList vs) (JDict d)
  = (JDict (d ++ [(p, JList (leaf q <$> vs))])%list, Ok tt) /\
  length (leaf q <$> vs) = length vs /\
  (forall i v, vs !! i = Some v ->
     (leaf q <$> vs) !! i
     = Some (if Py.is_none v then JDict [] else JDict [(q, v)])).
Proof.
  intros Hpath Hdim Hp. split; [|split].
  - unfold _create_metadata_of_a_property. rewrite Hpath.
    change (count_array [Array; Value]) with 1.
    assert (Hrec : reconcile 1 (JList vs) = Ok (JList vs))
      by (unfold reconcile; rewrite Hdim; reflexivity).
    rewrite run_lift, Hrec, Hdim.
    change (0 <? 1 - 1) with false. change (1 =? 0) with false. cbv iota.
    rewrite run_bind, run_ensure_absent by exact Hp.
    rewrite (run_at_key _ _ _ _ (lookup_store _ _ _)).
    cbn [Py.elements].
    rewrite (for_range_leaves _ q [Value] vs []).
    rewrite store_store, store_absent by exact Hp. reflexivity.
  - apply length_fmap.
  - intros i v Hi. rewrite list_lookup_fmap, Hi. reflexivity.
Qed.

Lemma replicate_per_element_witness :
  _create_metadata_of_a_property "p.q" [Array; Value]
    (JList [JStr "x"; JStr "y"]) (JDict [])
  = (JDict [("p", JList [JDict [("q", JStr "x")]; JDict [("q", JStr "y")]])],
     Ok tt).
Proof.
  apply (replicate_per_element "p.q" "p" "q" [JStr "x"; JStr "y"] []);
    reflexivity.
Defined.

(** ** What a builder can do to the node it runs on *)

Lemma extends_refl s : extends s s.
Proof. destruct s; simpl; eauto. Qed.

Lemma extends_trans s1 s2 s3 : extends s1 s2 -> extends s2 s3 -> extends s1 s3.
Proof.
  destruct s1; simpl; try (intros ->; simpl; auto).
  - intros (l2 & -> & H2) (l3 & -> & H3). exists l3. split; [reflexivity|lia].
  - intros (d2 & -> & H2) (d3 & -> & H3). exists d3. split; [reflexivity|lia].
Qed.

Lemma extends_truthy s s' :
  extends s s' -> Py.truthy s = true -> Py.truthy s' = true.
Proof.
  destruct s; simpl; try (intros ->; simpl; auto).
  - intros (l' & -> & Hl). simpl. rewrite Hl. auto.
  - intros (d' & -> & Hd). simpl.
    destruct d; simpl; [discriminate|]. destruct d'; simpl in *; [lia|auto].
Qed.

Lemma extends_reindex s i v : extends s (Py.reindex s i v).
Proof.
  destruct s; simpl; eauto. eexists. split; [reflexivity|apply length_insert].
Qed.

Lemma extends_rekey s k v : extends s (Py.rekey s k v).
Proof.
  destruct s; simpl; eauto. eexists. split; [reflexivity|apply store_length].
Qed.

Section Preserving.
Context {A B : Type}.

Lemma preserving_lift (r : result A) : preserving (lift r).
Proof. intros s s' r' [= <- _]. apply extends_refl. Qed.

Lemma preserving_bind (m : mut A) (k : A -> mut B) :
  preserving m -> (forall a, preserving (k a)) -> preserving (m ≫= k).
Proof.
  intros Hm Hk s s' r. rewrite run_bind.
  destruct (m s) as [s1 [a|e]] eqn:Hms.
  - intros Hks. eapply extends_trans; [eapply Hm, Hms | eapply Hk, Hks].
  - intros [= <- _]. eapply Hm, Hms.
Qed.

Lemma preserving_at_key k (m : mut A) : preserving (at_key k m).
Proof.
  intros s s' r. unfold at_key. destruct (Py.getitem s k) as [c|e].
  - destruct (m c) as [c' r']. intros [= <- _]. apply extends_rekey.
  - intros [= <- _]. apply extends_refl.
Qed.

Lemma preserving_at_index i (m : mut A) : preserving (at_index i m).
Proof.
  intros s s' r. unfold at_index. destruct (Py.index s i) as [c|e].
  - destruct (m c) as [c' r']. intros [= <- _]. apply extends_reindex.
  - intros [= <- _]. apply extends_refl.
Qed.
End Preserving.

Lemma preserving_ret {A} (a : A) : preserving (mret a : mut A).
Proof. intros s s' r [= <- _]. apply extends_refl. Qed.

Lemma preserving_setitem k v : preserving (self_setitem k v).
Proof.
  intros s s' r. unfold self_setitem.
  destruct s; simpl; intros [= <- _]; simpl; eauto.
  eexists. split; [reflexivity|apply store_length].
Qed.

Lemma preserving_ensure k fresh : preserving (ensure k fresh).
Proof.
  apply preserving_bind.
  - intros s s' r [= <- _]. apply extends_refl.
  - intros cur. destruct (Py.truthy cur);
      [apply preserving_ret | apply preserving_setitem].
Qed.

Lemma preserving_for_range body vs : forall i,
  (forall i v, preserving (body i v)) -> preserving (for_range body i vs).
Proof.
  induction vs as [|v vs IH]; intros i Hbody; simpl.
  - apply preserving_ret.
  - apply preserving_bind; [apply Hbody | intros _; apply IH, Hbody].
Qed.

(** The equation of the child builder when more than one key is left. *)
Lemma create_child_step diff k keys types v :
  keys <> [] ->
  _create_child_metadata_of_a_property diff (k :: keys) types v
  = match types with
    | [] => lift (Raise IndexError)
    | Value :: _ => if Py.is_none v then mret tt else self_setitem k v
    | Object :: types =>
        ensure k (JDict []);;
        at_key k (_create_child_metadata_of_a_property diff keys types v)
    | Array :: types =>
        if 0 <? diff then
          ensure k (JList [JDict []]);;
          at_key k (at_index 0
            (_create_child_metadata_of_a_property (diff - 1) keys types v))
        else if _get_dimensions v =? 0 then raise ArrayRequiresListValue
        else
          ensure k (JList (replicate (length (Py.elements v)) (JDict [])));;
          at_key k
            (for_range
               (fun i v => at_index i
                  (_create_child_metadata_of_a_property diff keys types v))
               0%nat (Py.elements v))
    end.
Proof. destruct keys; [contradiction|reflexivity]. Qed.

Lemma preserving_create_child diff keys types v :
  preserving (_create_child_metadata_of_a_property diff keys types v).
Proof.
  destruct keys as [|k [|k' keys]].
  - apply preserving_lift.
  - cbn. destruct (Py.is_none v);
      [apply preserving_ret | apply preserving_setitem].
  - rewrite create_child_step by discriminate.
    destruct types as [|[] types].
    + apply preserving_lift.
    + apply preserving_bind;
        [apply preserving_ensure | intros _; apply preserving_at_key].
    + destruct (0 <? diff); [|destruct (_get_dimensions v =? 0)].
      * apply preserving_bind;
          [apply preserving_ensure | intros _; apply preserving_at_key].
      * apply preserving_lift.
      * apply preserving_bind;
          [apply preserving_ensure | intros _; apply preserving_at_key].
    + destruct (Py.is_none v);
        [apply preserving_ret | apply preserving_setitem].
Qed.

(** ** Applying a rule twice *)

Lemma idempotent_fails e : idempotent (lift (Raise e)).
Proof. intros s s' [=]. Qed.

Lemma idempotent_ret : idempotent (mret tt).
Proof. intros s s' [= <-]. reflexivity. Qed.

Lemma idempotent_setitem k v : idempotent (self_setitem k v).
Proof.
  intros s s'. unfold self_setitem. destruct s; simpl; try discriminate.
  intros [= <-]. simpl. rewrite store_store. reflexivity.
Qed.

Lemma idempotent_leaf k v :
  idempotent (if Py.is_none v then mret tt else self_setitem k v).
Proof.
  destruct (Py.is_none v); [apply idempotent_ret | apply idempotent_setitem].
Qed.

Lemma run_ensure_not_dict k fresh s :
  Py.is_dict s = false -> ensure k fresh s = (s, Raise AttributeError).
Proof. destruct s; try discriminate; reflexivity. Qed.

(** The create-or-reuse step followed by the descent: a child that is
    reused is the one the first run left, and a child that is created again
    is created from the same fresh value. *)
Lemma idempotent_ensure_at_key k fresh (m : mut unit) :
  idempotent m -> preserving m ->
  idempotent (ensure k fresh;; at_key k m).
Proof.
  intros Hm Hpres s s'.
  assert (Hreuse : forall d c, Py.truthy c = true -> m c = (c, Ok tt) ->
            (ensure k fresh;; at_key k m) (JDict (Py.store k c d))
            = (JDict (Py.store k c d), Ok tt)).
  { intros d c Hc Hmc.
    rewrite run_bind, (run_ensure_truthy _ _ _ c) by auto using lookup_store.
    rewrite (run_at_key _ _ _ _ (lookup_store _ _ _)), Hmc, store_store.
    reflexivity. }
  assert (Hfresh : forall d c', m fresh = (c', Ok tt) ->
            (ensure k fresh;; at_key k m) (JDict (Py.store k c' d))
            = (JDict (Py.store k c' d), Ok tt)).
  { intros d c' Hmf. destruct (Py.truthy c') eqn:Hc'.
    - apply Hreuse; [exact Hc' | apply (Hm _ _ Hmf)].
    - rewrite run_bind, (run_ensure_falsy _ _ _ c') by auto using lookup_store.
      rewrite store_store, (run_at_key _ _ _ _ (lookup_store _ _ _)), Hmf.
      rewrite store_store. reflexivity. }
  destruct (Py.is_dict s) eqn:Hs.
  2:{ rewrite run_bind, run_ensure_not_dict by exact Hs. discriminate. }
  destruct s as [| | | | |d]; try discriminate. clear Hs.
  rewrite run_bind.
  destruct (Py.lookup k d) as [c|] eqn:Hk; [destruct (Py.truthy c) eqn:Hc|].
  - rewrite (run_ensure_truthy _ _ _ c), (run_at_key _ _ _ _ Hk) by assumption.
    destruct (m c) as [c' r] eqn:Hmc. intros [= <- ->].
    apply Hreuse; [|apply (Hm _ _ Hmc)].
    apply (extends_truthy c); [apply (Hpres _ _ _ Hmc) | exact Hc].
  - rewrite (run_ensure_falsy _ _ _ c) by assumption.
    rewrite (run_at_key _ _ _ _ (lookup_store _ _ _)).
    destruct (m fresh) as [c' r] eqn:Hmf. rewrite store_store.
    intros [= <- ->]. apply Hfresh. reflexivity.
  - rewrite run_ensure_absent by assumption.
    rewrite (run_at_key _ _ _ _ (lookup_store _ _ _)).
    destruct (m fresh) as [c' r] eqn:Hmf. rewrite store_store.
    intros [= <- ->]. apply Hfresh. reflexivity.
Qed.

Lemma idempotent_at_index i (m : mut unit) :
  idempotent m -> idempotent (at_index i m).
Proof.
  intros Hm s s' Hrun.
  destruct (Py.is_list s) eqn:Hs.
  - destruct s as [| | | |l|]; try discriminate. clear Hs.
    destruct (l !! i) as [c|] eqn:Hi.
    + rewrite (run_at_index _ _ _ _ Hi) in Hrun.
      destruct (m c) as [c' r] eqn:Hmc. injection Hrun as <- ->.
      rewrite (run_at_index _ _ _ c').
      * rewrite (Hm _ _ Hmc), list_insert_insert_eq. reflexivity.
      * apply list_lookup_insert_eq. eapply lookup_lt_Some, Hi.
    + unfold at_index in Hrun. cbn [Py.index] in Hrun. rewrite Hi in Hrun.
      discriminate.
  - assert (Hsame : s' = s).
    { unfold at_index in Hrun. destruct (Py.index s i) as [c|e].
      - destruct (m c) as [c' r]. injection Hrun as <- _.
        destruct s; try reflexivity. discriminate.
      - injection Hrun as <- _. reflexivity. }
    rewrite Hsame in *. exact Hrun.
Qed.

(** The loop over a list writes at index [i] and after: the length and the
    elements before [i] stay. *)
Lemma for_range_frame (f : json -> mut unit) vs : forall i l s' r,
  for_range (fun i v => at_index i (f v)) i vs (JList l) = (s', r) ->
  exists l', s' = JList l' /\ length l' = length l /\
    forall j, (j < i)%nat -> l' !! j = l !! j.
Proof.
  induction vs as [|v vs IH]; intros i l s' r.
  - intros [= <- _]. eauto.
  - cbn [for_range]. rewrite run_bind.
    destruct (l !! i) as [c|] eqn:Hi.
    + rewrite (run_at_index _ _ _ _ Hi).
      destruct (f v c) as [c' [[]|e]].
      * intros Hrest. apply IH in Hrest as (l' & -> & Hlen & Hframe).
        exists l'. rewrite length_insert in Hlen.
        split; [reflexivity|]. split; [exact Hlen|].
        intros j Hj. rewrite Hframe by lia.
        apply list_lookup_insert_ne. lia.
      * intros [= <- _]. eexists. split; [reflexivity|].
        split; [apply length_insert|].
        intros j Hj. apply list_lookup_insert_ne. lia.
    + unfold at_index. cbn [Py.index]. rewrite Hi. intros [= <- _]. eauto.
Qed.

Lemma for_range_not_list (f : json -> mut unit) vs : forall i s s' r,
  Py.is_list s = false ->
  for_range (fun i v => at_index i (f v)) i vs s = (s', r) -> s' = s.
Proof.
  induction vs as [|v vs IH]; intros i s s' r Hs.
  - intros [= <- _]. reflexivity.
  - cbn [for_range]. rewrite run_bind.
    destruct (at_index i (f v) s) as [s1 r1] eqn:Hstep.
    assert (Hs1 : s1 = s).
    { unfold at_index in Hstep. destruct (Py.index s i) as [c|e].
      - destruct (f v c) as [c' r']. injection Hstep as <- _.
        destruct s; try reflexivity. discriminate.
      - injection Hstep as <- _. reflexivity. }
    subst s1. destruct r1 as [[]|e].
    + apply IH, Hs.
    + intros [= <- _]. reflexivity.
Qed.

Lemma idempotent_for_range (f : json -> mut unit) vs :
  (forall v, idempotent (f v)) ->
  forall i, idempotent (for_range (fun i v => at_index i (f v)) i vs).
Proof.
  intros Hf. induction vs as [|v vs IH]; intros i s s'.
  - intros [= <-]. reflexivity.
  - cbn [for_range]. rewrite !run_bind.
    destruct (at_index i (f v) s) as [s1 [[]|e]] eqn:Hstep; [|discriminate].
    intros Hrest.
    assert (Hagain : at_index i (f v) s' = (s', Ok tt)).
    { destruct (Py.is_list s) eqn:Hs.
      - destruct s as [| | | |l|]; try discriminate. clear Hs.
        destruct (l !! i) as [c|] eqn:Hi.
        + rewrite (run_at_index _ _ _ _ Hi) in Hstep.
          destruct (f v c) as [c' r] eqn:Hfc. injection Hstep as <- ->.
          apply for_range_frame in Hrest as Hframe.
          destruct Hframe as (l' & -> & Hlen & Hframe).
          assert (Hi' : l' !! i = Some c').
          { rewrite Hframe by lia. apply list_lookup_insert_eq.
            eapply lookup_lt_Some, Hi. }
          rewrite (run_at_index _ _ _ _ Hi'), (Hf _ _ _ Hfc).
          rewrite list_insert_id by exact Hi'. reflexivity.
        + unfold at_index in Hstep. cbn [Py.index] in Hstep.
          rewrite Hi in Hstep. discriminate.
      - assert (Hs1 : s1 = s).
        { unfold at_index in Hstep. destruct (Py.index s i) as [c|e].
          - destruct (f v c) as [c' r']. injection Hstep as <- _.
            destruct s; try reflexivity. discriminate.
          - injection Hstep as <- _. reflexivity. }
        subst s1. apply for_range_not_list in Hrest as ->; [|exact Hs].
        exact Hstep. }
    rewrite Hagain. exact (IH _ _ _ Hrest).
Qed.

Lemma idempotent_create_child keys : forall diff types v,
  idempotent (_create_child_metadata_of_a_property diff keys types v).
Proof.
  induction keys as [|k keys IH]; intros diff types v.
  - apply idempotent_fails.
  - destruct keys as [|k' keys].
    + change (idempotent
                (if Py.is_none v then mret tt else self_setitem k v)).
      apply idempotent_leaf.
    + rewrite create_child_step by discriminate.
      destruct types as [|[] types].
      * apply idempotent_fails.
      * apply idempotent_ensure_at_key;
          [apply IH | apply preserving_create_child].
      * destruct (0 <? diff); [|destruct (_get_dimensions v =? 0)].
        -- apply idempotent_ensure_at_key;
             [apply idempotent_at_index, IH | apply preserving_at_index].
        -- apply idempotent_fails.
        -- apply idempotent_ensure_at_key.
           ++ apply idempotent_for_range. intros w. apply IH.
           ++ apply preserving_for_range. intros i w.
              apply preserving_at_index.
      * apply idempotent_leaf.
Qed.

Lemma idempotent_create_metadata path types v :
  idempotent (_create_metadata_of_a_property path types v).
Proof.
  intros s s'. unfold _create_metadata_of_a_property. rewrite !run_lift.
  destruct (reconcile (count_array types) v) as [w|e]; [|discriminate].
  destruct (Py.split path) as [|k [|k' keys]].
  - apply idempotent_fails.
  - destruct (0 <? _get_dimensions w).
    + rewrite !run_lift. destruct (Py.index w 0) as [first|e];
        [apply idempotent_setitem | discriminate].
    + apply idempotent_setitem.
  - destruct types as [|[] types].
    + apply idempotent_fails.
    + apply idempotent_ensure_at_key;
        [apply idempotent_create_child | apply preserving_create_child].
    + destruct (0 <? count_array (Array :: types) - _get_dimensions w);
        [|destruct (_get_dimensions w =? 0)].
      * apply idempotent_ensure_at_key;
          [apply idempotent_at_index, idempotent_create_child
          | apply preserving_at_index].
      * apply idempotent_fails.
      * apply idempotent_ensure_at_key.
        -- apply idempotent_for_range. intros u.
           apply idempotent_create_child.
        -- apply preserving_for_range. intros i u.
           apply preserving_at_index.
    + apply idempotent_fails.
Qed.

(** C3, refuted.  The single-wrapped and the replicated list of the
    specification's examples are found and reused by a second application,
    which rewrites the same leaves; and no rule, value and tree exist for
    which a second application leaves another tree than the first. *)
Lemma reapplication_appends_counterexample :
  (let once := JDict [("p", JList [JDict [("q", JStr "x")]])] in
   _create_metadata_of_a_property "p.q" [Array; Value] (JStr "x") (JDict [])
   = (once, Ok tt) /\
   _create_metadata_of_a_property "p.q" [Array; Value] (JStr "x") once
   = (once, Ok tt)) /\
  (let once := JDict [("p", JList [JDict [("q", JStr "x")];
                                   JDict [("q", JStr "y")]])] in
   _create_metadata_of_a_property "p.q" [Array; Value]
     (JList [JStr "x"; JStr "y"]) (JDict [])
   = (once, Ok tt) /\
   _create_metadata_of_a_property "p.q" [Array; Value]
     (JList [JStr "x"; JStr "y"]) once
   = (once, Ok tt)) /\
  ~ (exists path types v metadata once twice r,
       Array ∈ types /\
       _create_metadata_of_a_property path types v metadata = (once, Ok tt) /\
       _create_metadata_of_a_property path types v once = (twice, r) /\
       twice <> once).
Proof.
  split; [split; vm_compute; reflexivity|].
  split; [split; vm_compute; reflexivity|].
  intros (path & types & v & metadata & once & twice & r & _ & H1 & H2 & Hne).
  apply idempotent_create_metadata in H1. rewrite H1 in H2.
  injection H2 as <- _. apply Hne. reflexivity.
Qed.

(** C3, amended.  Applying a rule again with the same value to the tree
    its first application produced succeeds and leaves that tree as it is:
    scalar leaves are overwritten with the same value, and the lists the
    first application created, single-wrapped or replicated, are reused
    element by element; nothing is appended. *)
Theorem rule_application_idempotent path types v metadata once :
  _create_metadata_of_a_property path types v metadata = (once, Ok tt) ->
  _create_metadata_of_a_property path types v once = (once, Ok tt).
Proof. apply idempotent_create_metadata. Qed.

Lemma rule_application_idempotent_witness :
  _create_metadata_of_a_property "p.q" [Array; Value]
    (JList [JStr "x"; JStr "y"])
    (JDict [("p", JList [JDict [("q", JStr "x")]; JDict [("q", JStr "y")]])])
  = (JDict [("p", JList [JDict [("q", JStr "x")]; JDict [("q", JStr "y")]])],
     Ok tt).
Proof.
  apply (rule_application_idempotent "p.q" [Array; Value]
           (JList [JStr "x"; JStr "y"]) (JDict [])).
  reflexivity.
Defined.

(** ** An existing list shorter than the extracted one *)

Lemma for_range_app body vs1 vs2 : forall i s,
  for_range body i (vs1 ++ vs2) s
  = match for_range body i vs1 s with
    | (s1, Ok _) => for_range body (i + length vs1) vs2 s1
    | (s1, Raise e) => (s1, Raise e)
    end.
Proof.
  induction vs1 as [|v vs1 IH]; intros i s.
  - cbn. rewrite Nat.add_0_r. reflexivity.
  - cbn [app for_range length]. rewrite !run_bind.
    destruct (body i v s) as [s1 [[]|e]]; [|reflexivity].
    rewrite IH. replace (S i + length vs1)%nat with (i + S (length vs1))%nat by lia.
    reflexivity.
Qed.

(** The create-or-reuse step and the loop of the array branch with
    [diff_array == 0], on a dict that holds at [k] a non-empty list [old]
    shorter than the values [vs]: the list is reused, the loop runs over the
    elements it has and ends either with the exception one of them raised or,
    past them all, with the index error of [old[len(old)]]. *)
Lemma array_branch_short_list k (f : json -> mut unit) fresh vs d old :
  Py.lookup k d = Some (JList old) ->
  old <> [] ->
  (length old < length vs)%nat ->
  exists old' r,
    for_range (fun i v => at_index i (f v)) 0 (take (length old) vs)
      (JList old) = (JList old', r) /\
    length old' = length old /\
    (ensure k fresh;;
     at_key k (for_range (fun i v => at_index i (f v)) 0 vs)) (JDict d)
    = (JDict (Py.store k (JList old') d),
       Raise (match r with Ok _ => IndexError | Raise e => e end)).
Proof.
  intros Hk Hold Hlen.
  destruct (for_range (fun i v => at_index i (f v)) 0 (take (length old) vs)
              (JList old)) as [s1 r] eqn:Hloop.
  destruct (for_range_frame _ _ _ _ _ _ Hloop) as (old' & -> & Hlen' & _).
  exists old', r. split; [reflexivity|]. split; [exact Hlen'|].
  rewrite run_bind, (run_ensure_truthy _ _ _ (JList old)); [|exact Hk|].
  2:{ destruct old; [contradiction|reflexivity]. }
  rewrite (run_at_key _ _ _ _ Hk).
  rewrite <- (take_drop (length old) vs) at 1.
  rewrite for_range_app, Hloop.
  destruct r as [[]|e]; [|reflexivity].
  rewrite length_take, Nat.min_l by lia. cbn [Nat.add].
  destruct (drop (length old) vs) as [|v rest] eqn:Hdrop.
  { apply (f_equal length) in Hdrop. rewrite length_drop in Hdrop.
    simpl in Hdrop. lia. }
  cbn [for_range]. rewrite run_bind. unfold at_index. cbn [Py.index].
  rewrite (lookup_ge_None_2 old' (length old)) by lia. reflexivity.
Qed.

(** C10, for an existing empty list, and for a ragged value.  The list [[]]
    a prior rule left at [p] for an empty value counts as absent: the next
    rule replaces it by a list of its own length and succeeds.  And with a
    value whose second element is not a list under two arrays, the write
    into the second existing element raises the module's exception before
    the third index is reached. *)
Lemma short_existing_list_counterexample :
  (_create_metadata_of_a_property "p.q" [Array; Value] (JList []) (JDict [])
   = (JDict [("p", JList [])], Ok tt) /\
   _create_metadata_of_a_property "p.q" [Array; Value] (JList [JStr "x"])
     (JDict [("p", JList [])])
   = (JDict [("p", JList [JDict [("q", JStr "x")]])], Ok tt)) /\
  (let prior := JDict [("p", JList [JDict [("q", JList [JDict [("r", JStr "a")]])];
                                    JDict [("q", JList [JDict [("r", JStr "b")]])]])] in
   _create_metadata_of_a_property "p.q.r" [Array; Array; Value]
     (JList [JList [JStr "a"]; JList [JStr "b"]]) (JDict [])
   = (prior, Ok tt) /\
   _create_metadata_of_a_property "p.q.r" [Array; Array; Value]
     (JList [JList [JStr "c"]; JStr "d"; JStr "e"]) prior
   = (JDict [("p", JList [JDict [("q", JList [JDict [("r", JStr "c")]])];
                          JDict [("q", JList [JDict [("r", JStr "b")]])]])],
      Raise (WekoSwordserverException ArrayRequiresListValue))).
Proof. repeat split; vm_compute; reflexivity. Qed.

Lemma short_list_nonempty_case path k keys types vs d old :
  Py.split path = k :: keys ->
  keys <> [] ->
  _get_dimensions (JList vs) = count_array (Array :: types) ->
  Py.lookup k d = Some (JList old) ->
  old <> [] ->
  (length old < length vs)%nat ->
  exists old' r,
    for_range
      (fun i v => at_index i
         (_create_child_metadata_of_a_property 0 keys types v))
      0 (take (length old) vs) (JList old) = (JList old', r) /\
    length old' = length old /\
    let e := match r with Ok _ => IndexError | Raise e => e end in
    _create_metadata_of_a_property path (Array :: types) (JList vs) (JDict d)
    = (JDict (Py.store k (JList old') d), Raise e) /\
    _create_child_metadata_of_a_property 0 (k :: keys) (Array :: types)
      (JList vs) (JDict d)
    = (JDict (Py.store k (JList old') d), Raise e).
Proof.
  intros Hpath Hkeys Hdim Hk Hold Hlen.
  destruct (array_branch_short_list k
              (_create_child_metadata_of_a_property 0 keys types)
              (JList (replicate (length vs) (JDict []))) vs d old Hk Hold Hlen)
    as (old' & r & Hloop & Hlen' & Hrun).
  exists old', r. split; [exact Hloop|]. split; [exact Hlen'|].
  assert (Hpos : (_get_dimensions (JList vs) =? 0) = false).
  { apply Z.eqb_neq. destruct vs as [|v vs']; simpl; [lia|].
    pose proof (get_dimensions_nonneg v). lia. }
  split.
  - unfold _create_metadata_of_a_property. rewrite Hpath.
    assert (Hrec : reconcile (count_array (Array :: types)) (JList vs)
                   = Ok (JList vs)).
    { unfold reconcile. rewrite Hdim, Z.ltb_irrefl. reflexivity. }
    rewrite run_lift, Hrec. rewrite Hpos. rewrite Hdim, Z.sub_diag.
    change (0 <? 0) with false. cbv iota.
    destruct keys as [|k' keys]; [contradiction|]. exact Hrun.
  - rewrite create_child_step by exact Hkeys.
    change (0 <? 0) with false. cbv iota. rewrite Hpos. exact Hrun.
Qed.

(** The create-or-reuse step and the loop of the array branch with
    [diff_array == 0], on a dict that holds at [k] the empty list: the test
    [if not x.get(k)] takes it for absent, a fresh list is stored at [k], and
    the loop runs over the fresh list. *)
Lemma array_branch_empty_list k (f : json -> mut unit) vs d :
  Py.lookup k d = Some (JList []) ->
  exists fresh' r,
    for_range (fun i v => at_index i (f v)) 0 vs
      (JList (replicate (length vs) (JDict []))) = (JList fresh', r) /\
    length fresh' = length vs /\
    (ensure k (JList (replicate (length vs) (JDict [])));;
     at_key k (for_range (fun i v => at_index i (f v)) 0 vs)) (JDict d)
    = (JDict (Py.store k (JList fresh') d), r).
Proof.
  intros Hk.
  destruct (for_range (fun i v => at_index i (f v)) 0 vs
              (JList (replicate (length vs) (JDict [])))) as [s1 r] eqn:Hloop.
  destruct (for_range_frame _ _ _ _ _ _ Hloop) as (fresh' & -> & Hlen & _).
  exists fresh', r. split; [reflexivity|].
  split; [rewrite Hlen; apply length_replicate|].
  rewrite run_bind, (run_ensure_falsy _ _ _ (JList []))
    by (exact Hk || reflexivity).
  rewrite (run_at_key _ _ _ _ (lookup_store _ _ _)), Hloop, store_store.
  reflexivity.
Qed.

Lemma short_list_empty_case path k keys types vs d :
  Py.split path = k :: keys ->
  keys <> [] ->
  _get_dimensions (JList vs) = count_array (Array :: types) ->
  Py.lookup k d = Some (JList []) ->
  exists fresh' r,
    for_range
      (fun i v => at_index i
         (_create_child_metadata_of_a_property 0 keys types v))
      0 vs (JList (replicate (length vs) (JDict []))) = (JList fresh', r) /\
    length fresh' = length vs /\
    _create_metadata_of_a_property path (Array :: types) (JList vs) (JDict d)
    = (JDict (Py.store k (JList fresh') d), r) /\
    _create_child_metadata_of_a_property 0 (k :: keys) (Array :: types)
      (JList vs) (JDict d)
    = (JDict (Py.store k (JList fresh') d), r).
Proof.
  intros Hpath Hkeys Hdim Hk.
  destruct (array_branch_empty_list k
              (_create_child_metadata_of_a_property 0 keys types) vs d Hk)
    as (fresh' & r & Hloop & Hlen & Hrun).
  exists fresh', r. split; [exact Hloop|]. split; [exact Hlen|].
  assert (Hpos : (_get_dimensions (JList vs) =? 0) = false).
  { apply Z.eqb_neq. destruct vs as [|v vs']; simpl; [lia|].
    pose proof (get_dimensions_nonneg v). lia. }
  split.
  - unfold _create_metadata_of_a_property. rewrite Hpath.
    assert (Hrec : reconcile (count_array (Array :: types)) (JList vs)
                   = Ok (JList vs)).
    { unfold reconcile. rewrite Hdim, Z.ltb_irrefl. reflexivity. }
    rewrite run_lift, Hrec. rewrite Hpos. rewrite Hdim, Z.sub_diag.
    change (0 <? 0) with false. cbv iota.
    destruct keys as [|k' keys]; [contradiction|]. exact Hrun.
  - rewrite create_child_step by exact Hkeys.
    change (0 <? 0) with false. cbv iota. rewrite Hpos. exact Hrun.
Qed.

(** C10, amended.  At an array segment [k] with [diff_array == 0], in either
    builder, when the tree holds at [k] a list [old] shorter than the
    extracted list [vs].  If [old] is not empty, the builder writes into the
    elements [old] has, in order, and then fails; the exception is the one
    such a write raised if any did, and otherwise the index error of reading
    [old[len(old)]]; the list left at [k] has the length of [old].  If [old]
    is empty, it counts as absent: a fresh list of [len(vs)] empty objects
    replaces it, the loop runs over the fresh list with the outcome it has
    there, and the list left at [k] has the length of [vs]. *)
Theorem short_existing_list_index_error path k keys types vs d old :
  Py.split path = k :: keys ->
  keys <> [] ->
  _get_dimensions (JList vs) = count_array (Array :: types) ->
  Py.lookup k d = Some (JList old) ->
  (length old < length vs)%nat ->
  (old <> [] ->
   exists old' r,
     for_range
       (fun i v => at_index i
          (_create_child_metadata_of_a_property 0 keys types v))
       0 (take (length old) vs) (JList old) = (JList old', r) /\
     length old' = length old /\
     let e := match r with Ok _ => IndexError | Raise e => e end in
     _create_metadata_of_a_property path (Array :: types) (JList vs) (JDict d)
     = (JDict (Py.store k (JList old') d), Raise e) /\
     _create_child_metadata_of_a_property 0 (k :: keys) (Array :: types)
       (JList vs) (JDict d)
     = (JDict (Py.store k (JList old') d), Raise e)) /\
  (old = [] ->
   exists fresh' r,
     for_range
       (fun i v => at_index i
          (_create_child_metadata_of_a_property 0 keys types v))
       0 vs (JList (replicate (length vs) (JDict []))) = (JList fresh', r) /\
     length fresh' = length vs /\
     _create_metadata_of_a_property path (Array :: types) (JList vs) (JDict d)
     = (JDict (Py.store k (JList fresh') d), r) /\
     _create_child_metadata_of_a_property 0 (k :: keys) (Array :: types)
       (JList vs) (JDict d)
     = (JDict (Py.store k (JList fresh') d), r)).
Proof.
  intros Hpath Hkeys Hdim Hk Hlen. split.
  - intros Hold. apply short_list_nonempty_case; assumption.
  - intros ->. apply short_list_empty_case; assumption.
Qed.

Lemma short_existing_list_index_error_witness :
  (exists old' r,
     for_range
       (fun i v => at_index i
          (_create_child_metadata_of_a_property 0 ["q"] [Value] v))
       0 (take 2 [JStr "x"; JStr "y"; JStr "z"])
       (JList [JDict [("q", JStr "a")]; JDict [("q", JStr "b")]])
     = (JList old', r) /\
     length old' = 2%nat /\
     let e := match r with Ok _ => IndexError | Raise e => e end in
     _create_metadata_of_a_property "p.q" [Array; Value]
       (JList [JStr "x"; JStr "y"; JStr "z"])
       (JDict [("p", JList [JDict [("q", JStr "a")];
                            JDict [("q", JStr "b")]])])
     = (JDict (Py.store "p" (JList old')
                 [("p", JList [JDict [("q", JStr "a")];
                               JDict [("q", JStr "b")]])]),
        Raise e) /\
     _create_child_metadata_of_a_property 0 ["p"; "q"] [Array; Value]
       (JList [JStr "x"; JStr "y"; JStr "z"])
       (JDict [("p", JList [JDict [("q", JStr "a")];
                            JDict [("q", JStr "b")]])])
     = (JDict (Py.store "p" (JList old')
                 [("p", JList [JDict [("q", JStr "a")];
                               JDict [("q", JStr "b")]])]),
        Raise e)) /\
  (exists fresh' r,
     for_range
       (fun i v => at_index i
          (_create_child_metadata_of_a_property 0 ["q"] [Value] v))
       0 [JStr "x"; JStr "y"] (JList (replicate 2 (JDict [])))
     = (JList fresh', r) /\
     length fresh' = 2%nat /\
     _create_metadata_of_a_property "p.q" [Array; Value]
       (JList [JStr "x"; JStr "y"]) (JDict [("p", JList [])])
     = (JDict (Py.store "p" (JList fresh') [("p", JList [])]), r) /\
     _create_child_metadata_of_a_property 0 ["p"; "q"] [Array; Value]
       (JList [JStr "x"; JStr "y"]) (JDict [("p", JList [])])
     = (JDict (Py.store "p" (JList fresh') [("p", JList [])]), r)).
Proof.
  split.
  - apply (proj1 (short_existing_list_index_error "p.q" "p" ["q"] [Value]
             [JStr "x"; JStr "y"; JStr "z"]
             [("p", JList [JDict [("q", JStr "a")]; JDict [("q", JStr "b")]])]
             [JDict [("q", JStr "a")]; JDict [("q", JStr "b")]]
             eq_refl ltac:(discriminate) eq_refl eq_refl ltac:(simpl; lia))).
    discriminate.
  - apply (proj2 (short_existing_list_index_error "p.q" "p" ["q"] [Value]
             [JStr "x"; JStr "y"] [("p", JList [])] []
             eq_refl ltac:(discriminate) eq_refl eq_refl ltac:(simpl; lia))).
    reflexivity.
Defined.

(** On the two-segment paths of those examples every element is a dict and
    each write succeeds: the shorter list ends in the index error, and the
    empty list is replaced and filled. *)
Lemma short_existing_list_empty_two_segments :
  _create_metadata_of_a_property "p.q" [Array; Value]
    (JList [JStr "x"; JStr "y"]) (JDict [("p", JList [])])
  = (JDict [("p", JList [JDict [("q", JStr "x")]; JDict [("q", JStr "y")]])],
     Ok tt).
Proof. vm_compute. reflexivity. Qed.

(** On the two-segment path of that example every existing element is a
    dict, each write succeeds, and the exception is the index error. *)
Lemma short_existing_list_two_segments :
  _create_metadata_of_a_property "p.q" [Array; Value]
    (JList [JStr "x"; JStr "y"; JStr "z"])
    (JDict [("p", JList [JDict [("q", JStr "a")]; JDict [("q", JStr "b")]])])
  = (JDict [("p", JList [JDict [("q", JStr "x")]; JDict [("q", JStr "y")]])],
     Raise IndexError).
Proof. vm_compute. reflexivity. Qed.


(** * Further properties of the mapper *)

(** ** Source paths *)

Lemma detect_list_loop_Forall2 detect keys l : forall rs,
  detect_list_loop detect keys l = Ok rs <->
  Forall2 (fun e r => Py.is_dict e = true /\ detect e = Ok r) l rs.
Proof.
  induction l as [|e l IH]; intros rs.
  - cbn. split.
    + intros [= <-]. constructor.
    + intros H. inversion H. reflexivity.
  - split.
    + destruct e as [| | | | |d]; cbn; try discriminate.
      destruct (detect (JDict d)) as [r|err] eqn:Hd; cbn; [|discriminate].
      destruct (detect_list_loop detect keys l) as [rs'|err] eqn:Hl; cbn;
        [|discriminate].
      intros [= <-]. constructor; [split; [reflexivity|exact Hd]|].
      apply IH. reflexivity.
    + intros H. inversion H as [|e' r l' rs' [Hdict Hd] Hrest]; subst.
      destruct e as [| | | | |d]; try discriminate Hdict.
      cbn. rewrite Hd. cbn.
      apply IH in Hrest. rewrite Hrest. reflexivity.
Qed.

(** X1. In list mode the resolver returns one result per element, in
    order: it succeeds exactly when every element is a dict on which the
    remaining keys resolve, and the list it returns has the length of the
    list it went through. *)
Theorem detect_list_one_result_per_element json_keys list_ :
  (forall v, _detect_list json_keys list_ true = Ok v <->
     exists results, v = JList results /\
       Forall2 (fun e r => Py.is_dict e = true /\
                           _detect_dict json_keys e true = Ok r)
         list_ results) /\
  (forall results, _detect_list json_keys list_ true = Ok (JList results) ->
     length results = length list_).
Proof.
  assert (Hiff : forall v, _detect_list json_keys list_ true = Ok v <->
     exists results, v = JList results /\
       Forall2 (fun e r => Py.is_dict e = true /\
                           _detect_dict json_keys e true = Ok r)
         list_ results).
  { intros v. unfold _detect_list, detect_list_body. cbn [negb].
    destruct (detect_list_loop _ json_keys list_) as [rs|err] eqn:Hloop; cbn.
    - split.
      + intros [= <-]. exists rs. split; [reflexivity|].
        apply detect_list_loop_Forall2 in Hloop. exact Hloop.
      + intros (rs' & -> & H).
        apply (detect_list_loop_Forall2
                 (fun d => _detect_dict json_keys d true) json_keys) in H.
        rewrite Hloop in H. injection H as ->. reflexivity.
    - split; [discriminate|].
      intros (rs' & -> & H).
        apply (detect_list_loop_Forall2
                 (fun d => _detect_dict json_keys d true) json_keys) in H.
      rewrite Hloop in H. discriminate. }
  split; [exact Hiff|].
  intros results H. apply Hiff in H as (rs & [= <-] & H).
  symmetry. eapply Forall2_length, H.
Qed.

Lemma detect_list_one_result_per_element_witness :
  _detect_list ["b"]
    [JDict [("b", JNum 1)]; JDict [("b", JNum 2)]] true
  = Ok (JList [JNum 1; JNum 2]).
Proof.
  apply (proj1 (detect_list_one_result_per_element ["b"]
                  [JDict [("b", JNum 1)]; JDict [("b", JNum 2)]])).
  exists [JNum 1; JNum 2]. split; [reflexivity|].
  repeat constructor.
Defined.

Lemma detect_list_loop_iterable detect keys l :
  (forall e, detect e <> Raise (WekoSwordserverException ListNotIterable)) ->
  detect_list_loop detect keys l
  <> Raise (WekoSwordserverException ListNotIterable).
Proof.
  intros Hdetect. induction l as [|e l IH]; [discriminate|].
  destruct e as [| | | | |d]; cbn; try discriminate.
  destruct (detect (JDict d)) as [r|err] eqn:Hd; cbn.
  - destruct (detect_list_loop detect keys l) as [rs|err]; cbn;
      [discriminate|].
    intros [= ->]. apply IH. reflexivity.
  - intros [= ->]. apply (Hdetect (JDict d)). exact Hd.
Qed.

Lemma detect_dict_iterable json_keys : forall dict_ in_list,
  _detect_dict json_keys dict_ in_list
  <> Raise (WekoSwordserverException ListNotIterable).
Proof.
  induction json_keys as [|k rest IH]; intros dict_ in_list; [discriminate|].
  cbn [_detect_dict]. destruct (Py.get dict_ k) as [value|err] eqn:Hget.
  2:{ destruct dict_; cbn in Hget; try discriminate Hget;
      injection Hget as <-; discriminate. }
  cbn. destruct value as [| | | |l|d]; destruct rest as [|k' rest];
    try discriminate; try apply IH.
  unfold detect_list_body. cbn [negb].
  pose proof (detect_list_loop_iterable
                (fun d => _detect_dict (k' :: rest) d true) (k' :: rest) l
                (fun e => IH e true)) as Hloop.
  destruct (detect_list_loop _ (k' :: rest) l) as [rs|err]; cbn;
    [discriminate|].
  intros [= ->]. apply Hloop. reflexivity.
Qed.

(** X2. The guard of [_detect_list] on [_in_list] never fires: whatever
    the document and the path, the resolver does not raise the "No value got
    from list" exception. *)
Theorem list_not_iterable_unreachable self_json json_map_key :
  _get_json_metadata_value self_json json_map_key
  <> Raise (WekoSwordserverException ListNotIterable).
Proof.
  unfold _get_json_metadata_value.
  destruct (Py.split json_map_key) as [|k rest]; [discriminate|].
  destruct (Py.getitem self_json "record") as [record|err] eqn:Hrec.
  2:{ destruct self_json as [| | | | |d]; cbn in Hrec; try discriminate Hrec;
      try (injection Hrec as <-; discriminate).
      destruct (Py.lookup "record" d); [discriminate Hrec|].
      injection Hrec as <-. discriminate. }
  cbn. destruct (Py.getitem record "metadata") as [metadata|err] eqn:Hmd.
  2:{ destruct record as [| | | | |d]; cbn in Hmd; try discriminate Hmd;
      try (injection Hmd as <-; discriminate).
      destruct (Py.lookup "metadata" d); [discriminate Hmd|].
      injection Hmd as <-. discriminate. }
  cbn. destruct (Py.get metadata k) as [value|err] eqn:Hget.
  2:{ destruct metadata; cbn in Hget; try discriminate Hget;
      injection Hget as <-; discriminate. }
  cbn. destruct value as [| | | |l|d]; destruct rest as [|k' rest];
    try discriminate; try apply detect_dict_iterable.
  - unfold _detect_list, detect_list_body. cbn [negb].
    pose proof (detect_list_loop_iterable
                  (fun d => _detect_dict [] d true) [] l
                  (fun e => detect_dict_iterable [] e true)) as Hloop.
    destruct (detect_list_loop _ [] l) as [rs|err]; cbn; [discriminate|].
    intros [= ->]. apply Hloop. reflexivity.
  - unfold _detect_list, detect_list_body. cbn [negb].
    pose proof (detect_list_loop_iterable
                  (fun d => _detect_dict (k' :: rest) d true) (k' :: rest) l
                  (fun e => detect_dict_iterable (k' :: rest) e true)) as Hloop.
    destruct (detect_list_loop _ (k' :: rest) l) as [rs|err]; cbn;
      [discriminate|].
    intros [= ->]. apply Hloop. reflexivity.
Qed.

Lemma split_nonempty s : Py.split s <> [].
Proof.
  destruct s as [|c s]; cbn; [discriminate|].
  destruct (Ascii.eqb c "."); [discriminate|].
  destruct (Py.split s); discriminate.
Qed.

Lemma detect_dict_follows_dicts json_keys : forall dict_ in_list v,
  json_keys <> [] ->
  get_path json_keys dict_ = Some v ->
  v <> JNull ->
  _detect_dict json_keys dict_ in_list = Ok v.
Proof.
  induction json_keys as [|k rest IH]; intros dict_ in_list v Hne Hpath Hv;
    [contradiction|].
  cbn [get_path] in Hpath.
  destruct dict_ as [| | | | |d]; try discriminate Hpath.
  destruct (Py.lookup k d) as [w|] eqn:Hk; [|discriminate Hpath].
  cbn [_detect_dict Py.get]. rewrite Hk. cbn.
  destruct rest as [|k' rest].
  - injection Hpath as ->. destruct v; try reflexivity. contradiction.
  - destruct w as [| | | | |d']; try discriminate Hpath.
    apply IH; [discriminate | exact Hpath | exact Hv].
Qed.

(** X3. A source path that goes from dict to dict down to a value that is
    not [None] returns that value as it is, whatever its type; at the top
    level this needs the value not to be a list or the path to have at least
    two segments. *)
Theorem source_path_through_dicts self_json record metadata path v :
  Py.getitem self_json "record" = Ok record ->
  Py.getitem record "metadata" = Ok metadata ->
  get_path (Py.split path) metadata = Some v ->
  v <> JNull ->
  Py.is_list v = false \/ (2 <= length (Py.split path))%nat ->
  _get_json_metadata_value self_json path = Ok v.
Proof.
  intros Hrec Hmd Hpath Hv Hshape. unfold _get_json_metadata_value.
  destruct (Py.split path) as [|k rest] eqn:Hsplit;
    [exfalso; apply (split_nonempty _ Hsplit)|].
  rewrite Hrec. cbn. rewrite Hmd. cbn.
  cbn [get_path] in Hpath.
  destruct metadata as [| | | | |d]; try discriminate Hpath.
  destruct (Py.lookup k d) as [w|] eqn:Hk; [|discriminate Hpath].
  cbn [Py.get]. rewrite Hk. cbn.
  destruct rest as [|k' rest].
  - injection Hpath as ->. destruct Hshape as [Hl|Hl]; [|simpl in Hl; lia].
    destruct v; try reflexivity; discriminate.
  - destruct w as [| | | | |d']; try discriminate Hpath.
    apply detect_dict_follows_dicts; [discriminate | exact Hpath | exact Hv].
Qed.

Lemma source_path_through_dicts_witness :
  _get_json_metadata_value
    (JDict [("record",
       JDict [("metadata",
         JDict [("a", JDict [("b", JList [JStr "x"; JStr "y"])])])])])
    "a.b"
  = Ok (JList [JStr "x"; JStr "y"]).
Proof.
  eapply source_path_through_dicts.
  - reflexivity.
  - reflexivity.
  - reflexivity.
  - discriminate.
  - right. simpl. lia.
Defined.

(** ** Schema paths *)

Lemma type_loop_length item_map_keys : forall current_schema types,
  type_loop current_schema item_map_keys = Ok types ->
  length types = length item_map_keys.
Proof.
  induction item_map_keys as [|k rest IH]; intros cs types.
  - intros [= <-]. reflexivity.
  - cbn [type_loop]. unfold mbind, result_bind.
    destruct (Py.contains cs k) as [[]|]; cbn [negb]; try discriminate.
    destruct (Py.getitem cs k) as [entry|]; try discriminate.
    destruct (Py.get entry "type") as [type|]; try discriminate.
    destruct (Py.eq_str type "object"); [|destruct (Py.eq_str type "array")].
    + destruct (Py.get entry "properties") as [cs'|]; try discriminate.
      destruct (type_loop cs' rest) as [ts|] eqn:Hrest; try discriminate.
      intros [= <-]. cbn. f_equal. eapply IH, Hrest.
    + destruct (Py.get entry "items") as [items|]; try discriminate.
      destruct (Py.get items "properties") as [cs'|]; try discriminate.
      destruct (type_loop cs' rest) as [ts|] eqn:Hrest; try discriminate.
      intros [= <-]. cbn. f_equal. eapply IH, Hrest.
    + destruct (type_loop cs rest) as [ts|] eqn:Hrest; try discriminate.
      intros [= <-]. cbn. f_equal. eapply IH, Hrest.
Qed.

(** X4. Every kind sequence the schema resolver returns has one entry per
    segment of the path and ends with [value]. *)
Theorem resolved_kinds_shape schema item_map_key types :
  _get_type_of_item_type_path schema item_map_key = Ok types ->
  length types = length (Py.split item_map_key) /\
  last types = Some Value.
Proof.
  unfold _get_type_of_item_type_path, mbind, result_bind.
  destruct (Py.get schema "properties") as [cs|]; try discriminate.
  destruct (type_loop cs (Py.split item_map_key)) as [ts|] eqn:Hloop;
    try discriminate.
  apply type_loop_length in Hloop. rewrite Hloop, Nat.eqb_refl. cbn [negb].
  destruct (last ts) as [[]|] eqn:Hlast; try discriminate.
  intros [= <-]. split; [exact Hloop | exact Hlast].
Qed.

Lemma resolved_kinds_shape_witness :
  length [Value; Value] = length (Py.split "title.lang") /\
  last [Value; Value] = Some Value.
Proof.
  apply (resolved_kinds_shape two_scalars_schema "title.lang").
  reflexivity.
Defined.

Lemma result_builtin_get o k n m :
  Py.get o k <> Raise (WekoSwordserverException (InvalidSchemaPathLength n m)).
Proof. destruct o; discriminate. Qed.

Lemma type_loop_length_error item_map_keys n m : forall current_schema,
  type_loop current_schema item_map_keys
  <> Raise (WekoSwordserverException (InvalidSchemaPathLength n m)).
Proof.
  induction item_map_keys as [|k rest IH]; intros cs; [discriminate|].
  cbn [type_loop]. unfold mbind, result_bind.
  destruct (Py.contains cs k) as [[]|] eqn:Hin; cbn [negb]; try discriminate.
  2:{ destruct cs; cbn in Hin; try discriminate Hin.
      all: injection Hin as <-; discriminate. }
  destruct (Py.getitem cs k) as [entry|] eqn:Hentry.
  2:{ destruct cs as [| | | | |d]; cbn in Hentry; try discriminate Hentry;
        try (injection Hentry as <-; discriminate).
      destruct (Py.lookup k d); [discriminate Hentry|].
      injection Hentry as <-. discriminate. }
  destruct (Py.get entry "type") as [type|] eqn:Hty.
  2:{ intros [= ->]. eapply result_builtin_get, Hty. }
  destruct (Py.eq_str type "object"); [|destruct (Py.eq_str type "array")].
  - destruct (Py.get entry "properties") as [cs'|] eqn:Hp.
    2:{ intros [= ->]. eapply result_builtin_get, Hp. }
    destruct (type_loop cs' rest) as [ts|] eqn:Hrest; [discriminate|].
    intros [= ->]. eapply IH, Hrest.
  - destruct (Py.get entry "items") as [items|] eqn:Hi.
    2:{ intros [= ->]. eapply result_builtin_get, Hi. }
    destruct (Py.get items "properties") as [cs'|] eqn:Hp.
    2:{ intros [= ->]. eapply result_builtin_get, Hp. }
    destruct (type_loop cs' rest) as [ts|] eqn:Hrest; [discriminate|].
    intros [= ->]. eapply IH, Hrest.
  - destruct (type_loop cs rest) as [ts|] eqn:Hrest; [discriminate|].
    intros [= ->]. eapply IH, Hrest.
Qed.

(** X5. The length validation after the loop never fires: the schema
    resolver does not raise the "length ... is not equal" exception, for any
    schema, path and pair of lengths. *)
Theorem schema_length_check_unreachable schema item_map_key n m :
  _get_type_of_item_type_path schema item_map_key
  <> Raise (WekoSwordserverException (InvalidSchemaPathLength n m)).
Proof.
  unfold _get_type_of_item_type_path, mbind, result_bind.
  destruct (Py.get schema "properties") as [cs|] eqn:Hp.
  2:{ intros [= ->]. eapply result_builtin_get, Hp. }
  destruct (type_loop cs (Py.split item_map_key)) as [ts|] eqn:Hloop.
  - apply type_loop_length in Hloop. rewrite Hloop, Nat.eqb_refl. cbn [negb].
    destruct (last ts) as [[]|]; discriminate.
  - intros [= ->]. eapply type_loop_length_error, Hloop.
Qed.

(** ** Reconciliation *)

Lemma reconcile_bound types v w :
  reconcile (count_array types) v = Ok w ->
  0 <= count_array types - _get_dimensions w /\
  (w = v \/ exists rest, v = JList (w :: rest)).
Proof.
  unfold reconcile.
  destruct (count_array types <? _get_dimensions v) eqn:Hlt.
  - destruct (_get_dimensions v - count_array types =? 1) eqn:Hone;
      [|discriminate].
    apply Z.eqb_eq in Hone. pose proof (count_array_nonneg types) as Ha.
    destruct v as [| | | |[|x rest]|]; cbn in Hone; try lia.
    + discriminate.
    + cbn. intros [= <-]. split; [lia|]. right. eauto.
  - apply Z.ltb_ge in Hlt. intros [= <-]. split; [lia|]. left. reflexivity.
Qed.


(** X6. The value the builder goes on with after reconciliation never has
    more dimensions than the kinds have arrays, so [diff_array] is never
    negative; it is the extracted value itself or its first element. *)
Theorem reconcile_leaves_no_excess types v w :
  reconcile (count_array types) v = Ok w ->
  0 <= count_array types - _get_dimensions w /\
  (w = v \/ exists rest, v = JList (w :: rest)).
Proof. apply reconcile_bound. Qed.

Lemma reconcile_leaves_no_excess_witness :
  0 <= count_array [Array; Value] - _get_dimensions (JList [JStr "x"]) /\
  (JList [JStr "x"] = JList [JList [JStr "x"]; JList [JStr "y"]] \/
   exists rest,
     JList [JList [JStr "x"]; JList [JStr "y"]]
     = JList (JList [JStr "x"] :: rest)).
Proof.
  apply (reconcile_leaves_no_excess [Array; Value]
           (JList [JList [JStr "x"]; JList [JStr "y"]]) (JList [JStr "x"])).
  reflexivity.
Defined.

(** ** One rule and the rest of the tree *)

Lemma lookup_store_ne k k' v d :
  k' <> k -> Py.lookup k' (Py.store k v d) = Py.lookup k' d.
Proof.
  intros Hne. induction d as [|[k0 v0] d IH]; cbn.
  - destruct (String.eqb_spec k' k); [contradiction|reflexivity].
  - destruct (String.eqb_spec k k0) as [->|Hk0]; cbn.
    + destruct (String.eqb_spec k' k0); [contradiction|reflexivity].
    + rewrite IH. reflexivity.
Qed.

Lemma writes_only_refl k s : writes_only k s s.
Proof. left. reflexivity. Qed.

Lemma writes_only_trans k s1 s2 s3 :
  writes_only k s1 s2 -> writes_only k s2 s3 -> writes_only k s1 s3.
Proof.
  intros [->|(d & v & -> & ->)] H23; [exact H23|].
  destruct H23 as [->|(d' & v' & [= <-] & ->)].
  - right. eauto.
  - right. exists d, v'. rewrite store_store. split; reflexivity.
Qed.

Lemma writes_only_setitem k v s s' r :
  self_setitem k v s = (s', r) -> writes_only k s s'.
Proof.
  unfold self_setitem. destruct s; cbn; intros [= <- _];
    try apply writes_only_refl.
  right. eauto.
Qed.

Lemma writes_only_ensure k fresh s s' r :
  ensure k fresh s = (s', r) -> writes_only k s s'.
Proof.
  unfold ensure. rewrite run_bind. unfold self_get.
  destruct (Py.get s k) as [cur|e]; [|intros [= <- _]; apply writes_only_refl].
  destruct (Py.truthy cur).
  - intros [= <- _]. apply writes_only_refl.
  - apply writes_only_setitem.
Qed.

Lemma writes_only_at_key {A} k (m : mut A) s s' r :
  at_key k m s = (s', r) -> writes_only k s s'.
Proof.
  unfold at_key. destruct (Py.getitem s k) as [c|e];
    [|intros [= <- _]; apply writes_only_refl].
  destruct (m c) as [c' r']. intros [= <- _].
  destruct s; try apply writes_only_refl. right. cbn. eauto.
Qed.

Lemma writes_only_ensure_at_key k fresh (m : mut unit) s s' r :
  (ensure k fresh;; at_key k m) s = (s', r) -> writes_only k s s'.
Proof.
  rewrite run_bind. destruct (ensure k fresh s) as [s1 [[]|e]] eqn:Hens.
  - intros Hkey. eapply writes_only_trans;
      [eapply writes_only_ensure, Hens | eapply writes_only_at_key, Hkey].
  - intros [= <- _]. eapply writes_only_ensure, Hens.
Qed.

Lemma writes_only_create_metadata path k keys types v s s' r :
  Py.split path = k :: keys ->
  _create_metadata_of_a_property path types v s = (s', r) ->
  writes_only k s s'.
Proof.
  intros Hpath. unfold _create_metadata_of_a_property. rewrite Hpath, run_lift.
  destruct (reconcile (count_array types) v) as [w|e];
    [|intros [= <- _]; apply writes_only_refl].
  destruct keys as [|k' keys].
  - destruct (0 <? _get_dimensions w).
    + rewrite run_lift. destruct (Py.index w 0) as [first|e];
        [apply writes_only_setitem | intros [= <- _]; apply writes_only_refl].
    + apply writes_only_setitem.
  - destruct types as [|[] types].
    + intros [= <- _]. apply writes_only_refl.
    + apply writes_only_ensure_at_key.
    + destruct (0 <? count_array (Array :: types) - _get_dimensions w);
        [|destruct (_get_dimensions w =? 0)].
      * apply writes_only_ensure_at_key.
      * intros [= <- _]. apply writes_only_refl.
      * apply writes_only_ensure_at_key.
    + intros [= <- _]. apply writes_only_refl.
Qed.

(** X7. Whether it returns or raises, one rule application leaves the
    output tree a dict, changes no entry other than the one of the first
    segment of its target path, and removes no entry. *)
Theorem rule_writes_under_first_segment path k keys types v d s' r :
  Py.split path = k :: keys ->
  _create_metadata_of_a_property path types v (JDict d) = (s', r) ->
  exists d',
    s' = JDict d' /\
    (forall k', k' <> k -> Py.lookup k' d' = Py.lookup k' d) /\
    (forall k', is_Some (Py.lookup k' d) -> is_Some (Py.lookup k' d')).
Proof.
  intros Hpath Hrun.
  destruct (writes_only_create_metadata _ _ _ _ _ _ _ _ Hpath Hrun)
    as [->|(d0 & w & [= <-] & ->)].
  - exists d. auto.
  - exists (Py.store k w d). split; [reflexivity|]. split.
    + intros k' Hne. apply lookup_store_ne, Hne.
    + intros k' Hsome. destruct (decide (k' = k)) as [->|Hne].
      * rewrite lookup_store. eauto.
      * rewrite lookup_store_ne by exact Hne. exact Hsome.
Qed.

Lemma rule_writes_under_first_segment_witness :
  exists d',
    JDict [("t", JStr "kept"); ("p", JList [JDict [("q", JStr "x")]])]
    = JDict d' /\
    (forall k', k' <> "p" ->
       Py.lookup k' d' = Py.lookup k' [("t", JStr "kept")]) /\
    (forall k', is_Some (Py.lookup k' [("t", JStr "kept")]) ->
       is_Some (Py.lookup k' d')).
Proof.
  apply (rule_writes_under_first_segment "p.q" "p" ["q"] [Array; Value]
           (JStr "x") [("t", JStr "kept")] _ (Ok tt)); reflexivity.
Defined.

(** ** Shapes the builder produces *)

Lemma reconcile_fits a v :
  _get_dimensions v <= a -> reconcile a v = Ok v.
Proof.
  intros Hd. unfold reconcile.
  replace (a <? _get_dimensions v) with false
    by (symmetry; apply Z.ltb_ge; lia).
  reflexivity.
Qed.

Lemma is_none_false x : x <> JNull -> Py.is_none x = false.
Proof. destruct x; try reflexivity. contradiction. Qed.

(** X8. Two rules whose target paths share an object prefix are merged:
    after [p.q] and then [p.r] have been written, with kinds
    [object, value], into a tree without [p], the one object at [p] holds
    both leaves, in the order of the rules. *)
Theorem object_rules_merge path1 path2 p q r x y d :
  Py.split path1 = [p; q] ->
  Py.split path2 = [p; r] ->
  q <> r ->
  _get_dimensions x = 0 -> x <> JNull ->
  _get_dimensions y = 0 -> y <> JNull ->
  Py.lookup p d = None ->
  exists once,
    _create_metadata_of_a_property path1 [Object; Value] x (JDict d)
    = (once, Ok tt) /\
    once = JDict (d ++ [(p, JDict [(q, x)])])%list /\
    _create_metadata_of_a_property path2 [Object; Value] y once
    = (JDict (d ++ [(p, JDict [(q, x); (r, y)])])%list, Ok tt).
Proof.
  intros Hp1 Hp2 Hqr Hdx Hx Hdy Hy Hp.
  exists (JDict (d ++ [(p, JDict [(q, x)])])%list).
  split; [|split; [reflexivity|]].
  - unfold _create_metadata_of_a_property. rewrite Hp1.
    change (count_array [Object; Value]) with 0.
    rewrite run_lift, reconcile_fits by lia.
    rewrite run_bind, run_ensure_absent by exact Hp.
    rewrite (run_at_key _ _ _ _ (lookup_store _ _ _)).
    rewrite create_child_last, (is_none_false _ Hx).
    unfold self_setitem. cbn [Py.setitem Py.store].
    rewrite store_store, store_absent by exact Hp. reflexivity.
  - unfold _create_metadata_of_a_property. rewrite Hp2.
    change (count_array [Object; Value]) with 0.
    rewrite run_lift, reconcile_fits by lia.
    rewrite <- (store_absent p (JDict [(q, x)]) d Hp).
    rewrite run_bind, (run_ensure_truthy _ _ _ (JDict [(q, x)]))
      by auto using lookup_store.
    rewrite (run_at_key _ _ _ _ (lookup_store _ _ _)).
    rewrite create_child_last, (is_none_false _ Hy).
    unfold self_setitem. cbn [Py.setitem Py.store].
    destruct (String.eqb_spec r q) as [->|_]; [contradiction|].
    rewrite store_store, store_absent by exact Hp. reflexivity.
Qed.

Lemma object_rules_merge_witness :
  exists once,
    _create_metadata_of_a_property "p.q" [Object; Value] (JStr "x") (JDict [])
    = (once, Ok tt) /\
    once = JDict [("p", JDict [("q", JStr "x")])] /\
    _create_metadata_of_a_property "p.r" [Object; Value] (JNum 2) once
    = (JDict [("p", JDict [("q", JStr "x"); ("r", JNum 2)])], Ok tt).
Proof.
  apply (object_rules_merge "p.q" "p.r" "p" "q" "r" (JStr "x") (JNum 2) []);
    try reflexivity; discriminate.
Defined.

(** X9. A one-segment target path without array stores a value of
    dimension 0 at its key as it is, [None] included, replacing what was
    there; of a non-empty list of such values it stores the first element
    only. *)
Theorem single_segment_stores_first path k types x rest d :
  Py.split path = [k] ->
  count_array types = 0 ->
  _get_dimensions x = 0 ->
  _create_metadata_of_a_property path types x (JDict d)
  = (JDict (Py.store k x d), Ok tt) /\
  _create_metadata_of_a_property path types (JList (x :: rest)) (JDict d)
  = (JDict (Py.store k x d), Ok tt).
Proof.
  intros Hpath Ha Hx.
  assert (Hone : _create_metadata_of_a_property path types x (JDict d)
                 = (JDict (Py.store k x d), Ok tt)).
  { unfold _create_metadata_of_a_property. rewrite Hpath, Ha.
    rewrite run_lift, reconcile_fits by lia. rewrite Hx. reflexivity. }
  split; [exact Hone|].
  rewrite <- Hone. apply create_metadata_reconciled.
  - apply reconcile_collapse. cbn. lia.
  - apply reconcile_collapse with (rest := rest). cbn. lia.
Qed.

Lemma single_segment_stores_first_witness :
  _create_metadata_of_a_property "title" [Value] (JStr "a")
    (JDict [("title", JStr "old")])
  = (JDict [("title", JStr "a")], Ok tt) /\
  _create_metadata_of_a_property "title" [Value]
    (JList [JStr "a"; JStr "b"]) (JDict [("title", JStr "old")])
  = (JDict [("title", JStr "a")], Ok tt).
Proof.
  apply (single_segment_stores_first "title" "title" [Value] (JStr "a")
           [JStr "b"] [("title", JStr "old")]); reflexivity.
Defined.

(** X10. With two arrays on the path and a list of dimension 1, the array
    that has no list level of its own is the outer one: [p] gets a
    one-element list, and the list of [len(vs)] objects goes under [q] in
    its single object. *)
Theorem outer_array_is_wrapped path p q r vs d :
  Py.split path = [p; q; r] ->
  _get_dimensions (JList vs) = 1 ->
  Py.lookup p d = None ->
  _create_metadata_of_a_property path [Array; Array; Value] (JList vs)
    (JDict d)
  = (JDict (d ++ [(p, JList [JDict [(q, JList (leaf r <$> vs))]])])%list,
     Ok tt).
Proof.
  intros Hpath Hdim Hp.
  unfold _create_metadata_of_a_property. rewrite Hpath.
  change (count_array [Array; Array; Value]) with 2.
  rewrite run_lift, reconcile_fits by lia. rewrite Hdim.
  change (0 <? 2 - 1) with true. cbv iota.
  rewrite run_bind, run_ensure_absent by exact Hp.
  rewrite (run_at_key _ _ _ _ (lookup_store _ _ _)).
  rewrite (run_at_index 0 _ [JDict []] (JDict [])) by reflexivity.
  rewrite create_child_step by discriminate.
  change (0 <? 2 - 1 - 1) with false. cbv iota. rewrite Hdim.
  change (1 =? 0) with false. cbv iota.
  rewrite run_bind, run_ensure_absent by reflexivity.
  rewrite (run_at_key _ _ _ _ (lookup_store _ _ _)).
  cbn [Py.elements].
  rewrite (for_range_leaves _ r [Value] vs []).
  rewrite !store_store, store_absent by exact Hp. reflexivity.
Qed.

Lemma outer_array_is_wrapped_witness :
  _create_metadata_of_a_property "p.q.r" [Array; Array; Value]
    (JList [JStr "x"; JStr "y"]) (JDict [])
  = (JDict [("p", JList [JDict [("q", JList [JDict [("r", JStr "x")];
                                             JDict [("r", JStr "y")]])]])],
     Ok tt).
Proof.
  apply (outer_array_is_wrapped "p.q.r" "p" "q" "r" [JStr "x"; JStr "y"] []);
    reflexivity.
Defined.

(** A target path of several segments whose first kind is [value]
    is rejected with the module's exception before anything is written, for
    every value that fits the kinds. *)
Theorem value_first_is_rejected path k k' keys types v s :
  Py.split path = k :: k' :: keys ->
  _get_dimensions v <= count_array (Value :: types) ->
  _create_metadata_of_a_property path (Value :: types) v s
  = (s, Raise (WekoSwordserverException TrailingSegmentsAfterValue)).
Proof.
  intros Hpath Hfit. unfold _create_metadata_of_a_property.
  rewrite Hpath, run_lift, reconcile_fits by exact Hfit. reflexivity.
Qed.

Lemma value_first_is_rejected_witness :
  _create_metadata_of_a_property "title.lang" [Value; Value] (JStr "x")
    (JDict [("t", JStr "kept")])
  = (JDict [("t", JStr "kept")],
     Raise (WekoSwordserverException TrailingSegmentsAfterValue)).
Proof.
  apply (value_first_is_rejected "title.lang" "title" "lang" []); [reflexivity|].
  vm_compute. discriminate.
Defined.

(** X11. Below the first segment a [value] kind ends the write: the value
    is stored at that segment, and the segments and kinds after it are
    ignored without an error. *)
Theorem value_kind_ends_the_write path p q keys types x d :
  Py.split path = p :: q :: keys ->
  _get_dimensions x = 0 -> x <> JNull ->
  Py.lookup p d = None ->
  _create_metadata_of_a_property path (Object :: Value :: types) x (JDict d)
  = (JDict (d ++ [(p, JDict [(q, x)])])%list, Ok tt).
Proof.
  intros Hpath Hdim Hx Hp.
  unfold _create_metadata_of_a_property. rewrite Hpath.
  pose proof (count_array_nonneg (Object :: Value :: types)) as Ha.
  rewrite run_lift, reconcile_fits by lia.
  rewrite run_bind, run_ensure_absent by exact Hp.
  rewrite (run_at_key _ _ _ _ (lookup_store _ _ _)).
  assert (Hchild : forall diff,
    _create_child_metadata_of_a_property diff (q :: keys) (Value :: types) x
      (JDict [])
    = (JDict [(q, x)], Ok tt)).
  { intros diff. destruct keys as [|k' keys].
    - rewrite create_child_last, (is_none_false _ Hx). reflexivity.
    - rewrite create_child_step by discriminate.
      rewrite (is_none_false _ Hx). reflexivity. }
  rewrite Hchild, store_store, store_absent by exact Hp. reflexivity.
Qed.

Lemma value_kind_ends_the_write_witness :
  _create_metadata_of_a_property "creator.name.lang" [Object; Value; Value]
    (JStr "x") (JDict [])
  = (JDict [("creator", JDict [("name", JStr "x")])], Ok tt).
Proof.
  apply (value_kind_ends_the_write "creator.name.lang" "creator" "name"
           ["lang"] [Value] (JStr "x") []); try reflexivity. discriminate.
Defined.

(** ** Which exceptions a short path can end with *)

Lemma builtin_only_ret : builtin_only (mret tt).
Proof. intros s s' r msg [= _ <-]. discriminate. Qed.

Lemma builtin_only_setitem k v : builtin_only (self_setitem k v).
Proof.
  intros s s' r msg. unfold self_setitem.
  destruct (Py.setitem s k v) as [s1|e] eqn:Hset; intros [= _ <-];
    [discriminate|].
  destruct s; cbn in Hset; try discriminate Hset;
    injection Hset as <-; discriminate.
Qed.

Lemma builtin_only_leaf diff q types v :
  builtin_only (_create_child_metadata_of_a_property diff [q] types v).
Proof.
  change (builtin_only (if Py.is_none v then mret tt else self_setitem q v)).
  destruct (Py.is_none v);
    [apply builtin_only_ret | apply builtin_only_setitem].
Qed.

Lemma builtin_only_ensure k fresh : builtin_only (ensure k fresh).
Proof.
  intros s s' r msg. unfold ensure. rewrite run_bind. unfold self_get.
  destruct (Py.get s k) as [cur|e] eqn:Hget.
  - destruct (Py.truthy cur);
      [apply builtin_only_ret | apply builtin_only_setitem].
  - intros [= _ <-]. destruct s; cbn in Hget; try discriminate Hget;
      injection Hget as <-; discriminate.
Qed.

Lemma builtin_only_bind (m k : mut unit) :
  builtin_only m -> builtin_only k -> builtin_only (m;; k).
Proof.
  intros Hm Hk s s' r msg. rewrite run_bind.
  destruct (m s) as [s1 [[]|e]] eqn:Hms.
  - apply Hk.
  - intros [= _ <-]. eapply Hm, Hms.
Qed.

Lemma builtin_only_at_key k (m : mut unit) :
  builtin_only m -> builtin_only (at_key k m).
Proof.
  intros Hm s s' r msg. unfold at_key.
  destruct (Py.getitem s k) as [c|e] eqn:Hget.
  - destruct (m c) as [c' r'] eqn:Hmc. intros [= _ <-]. eapply Hm, Hmc.
  - intros [= _ <-]. destruct s as [| | | | |d]; cbn in Hget;
      try discriminate Hget; try (injection Hget as <-; discriminate).
    destruct (Py.lookup k d); [discriminate Hget|].
    injection Hget as <-. discriminate.
Qed.

Lemma builtin_only_at_index i (m : mut unit) :
  builtin_only m -> builtin_only (at_index i m).
Proof.
  intros Hm s s' r msg. unfold at_index.
  destruct (Py.index s i) as [c|e] eqn:Hget.
  - destruct (m c) as [c' r'] eqn:Hmc. intros [= _ <-]. eapply Hm, Hmc.
  - intros [= _ <-]. destruct s as [| | |str|l|]; cbn in Hget;
      try discriminate Hget; try (injection Hget as <-; discriminate).
    + destruct (get i str); [discriminate Hget|].
      injection Hget as <-. discriminate.
    + destruct (l !! i); [discriminate Hget|].
      injection Hget as <-. discriminate.
Qed.

Lemma builtin_only_for_range body vs : forall i,
  (forall i v, builtin_only (body i v)) -> builtin_only (for_range body i vs).
Proof.
  induction vs as [|v vs IH]; intros i Hbody; cbn [for_range].
  - apply builtin_only_ret.
  - apply builtin_only_bind; [apply Hbody | apply IH, Hbody].
Qed.

(** On a target path of one or two segments the builder never raises the
    "num_array_type must be 0" exception. *)
Theorem array_requires_list_needs_depth path types v s s' r :
  (length (Py.split path) <= 2)%nat ->
  _create_metadata_of_a_property path types v s = (s', r) ->
  r <> Raise (WekoSwordserverException ArrayRequiresListValue).
Proof.
  intros Hlen. unfold _create_metadata_of_a_property. rewrite run_lift.
  destruct (reconcile (count_array types) v) as [w|e] eqn:Hrec.
  2:{ intros [= _ <-]. unfold reconcile in Hrec.
      destruct (count_array types <? _get_dimensions v);
        [|discriminate Hrec].
      destruct (_get_dimensions v - count_array types =? 1);
        [|injection Hrec as <-; discriminate].
      destruct v as [| | |str|l|]; cbn in Hrec;
        try discriminate Hrec; try (injection Hrec as <-; discriminate).
      - destruct (get 0 str); [discriminate Hrec|].
        injection Hrec as <-. discriminate.
      - destruct l; [|discriminate Hrec]. injection Hrec as <-. discriminate. }
  apply reconcile_bound in Hrec as [Hbound _].
  destruct (Py.split path) as [|k [|q [|k' keys]]]; cbn in Hlen; try lia.
  - intros [= _ <-]. discriminate.
  - destruct (0 <? _get_dimensions w).
    + rewrite run_lift. destruct (Py.index w 0) as [first|e] eqn:Hidx.
      * apply builtin_only_setitem.
      * intros [= _ <-]. destruct w as [| | |str|l|]; cbn in Hidx;
          try discriminate Hidx; try (injection Hidx as <-; discriminate).
        -- destruct (get 0 str); [discriminate Hidx|].
           injection Hidx as <-. discriminate.
        -- destruct l; [|discriminate Hidx].
           injection Hidx as <-. discriminate.
    + apply builtin_only_setitem.
  - destruct types as [|[] types].
    + intros [= _ <-]. discriminate.
    + apply builtin_only_bind;
        [apply builtin_only_ensure
        | apply builtin_only_at_key, builtin_only_leaf].
    + destruct (0 <? count_array (Array :: types) - _get_dimensions w)
        eqn:Hdiff; [|destruct (_get_dimensions w =? 0) eqn:Hzero].
      * apply builtin_only_bind;
          [apply builtin_only_ensure
          | apply builtin_only_at_key, builtin_only_at_index,
              builtin_only_leaf].
      * exfalso. apply Z.ltb_ge in Hdiff. apply Z.eqb_eq in Hzero.
        pose proof (count_array_nonneg types).
        unfold count_array in *. cbn [filter list_filter] in *.
        rewrite decide_True in * by reflexivity.
        cbn [length] in *. lia.
      * apply builtin_only_bind; [apply builtin_only_ensure|].
        apply builtin_only_at_key, builtin_only_for_range.
        intros i u. apply builtin_only_at_index, builtin_only_leaf.
    + intros [= _ <-]. discriminate.
Qed.

Lemma array_requires_list_needs_depth_witness :
  Raise (WekoSwordserverException TrailingSegmentsAfterValue)
  <> Raise (A := unit) (WekoSwordserverException ArrayRequiresListValue).
Proof.
  apply (array_requires_list_needs_depth "title.lang" [Value; Value]
           (JStr "x") (JDict []) (JDict [])).
  - vm_compute. lia.
  - reflexivity.
Defined.

(** X12. The [raise] in the array branch of
    [_create_metadata_of_a_property] is unreachable: the function with the
    raise in place is the function itself, and with any other computation in
    that place it is still the same function on every path, kinds, value and
    tree. *)
Theorem top_level_array_raise_unreachable :
  (forall path types v,
     create_metadata_with_top_raise (raise ArrayRequiresListValue) path types v
     = _create_metadata_of_a_property path types v) /\
  (forall other path types v s,
     create_metadata_with_top_raise other path types v s
     = _create_metadata_of_a_property path types v s).
Proof.
  split; [reflexivity|].
  intros other path types v s.
  unfold create_metadata_with_top_raise, _create_metadata_of_a_property.
  rewrite !run_lift.
  destruct (reconcile (count_array types) v) as [w|e] eqn:Hrec;
    [|reflexivity].
  apply reconcile_bound in Hrec as [Hbound _].
  destruct (Py.split path) as [|k [|k' keys]]; try reflexivity.
  destruct types as [|[] types]; try reflexivity.
  destruct (0 <? count_array (Array :: types) - _get_dimensions w) eqn:Hdiff;
    [reflexivity|].
  destruct (_get_dimensions w =? 0) eqn:Hzero; [|reflexivity].
  exfalso. apply Z.ltb_ge in Hdiff. apply Z.eqb_eq in Hzero.
  pose proof (count_array_nonneg types).
  unfold count_array in *. cbn [filter list_filter] in *.
  rewrite decide_True in * by reflexivity.
  cbn [length] in *. lia.
Qed.

(** ** The loop over the rules *)

Lemma create_metadata_step_skipped self item_map k v s :
  has_source self (k, v) = false ->
  Mapper.create_metadata_step self item_map k v s = (s, Ok tt).
Proof.
  unfold has_source, Mapper.create_metadata_step. cbn [snd].
  rewrite run_lift.
  destruct (_get_json_metadata_value (self_json self) v) as [[]|];
    try discriminate.
  reflexivity.
Qed.

Lemma create_metadata_loop_filter self item_map json_map : forall s,
  Mapper.create_metadata_loop self item_map json_map s
  = Mapper.create_metadata_loop self item_map
      (filter (fun rule => has_source self rule) json_map) s.
Proof.
  induction json_map as [|[k v] rest IH]; intros s; [reflexivity|].
  destruct (has_source self (k, v)) eqn:Hsrc.
  - rewrite filter_cons_True by (rewrite Hsrc; exact I).
    cbn [Mapper.create_metadata_loop]. rewrite !run_bind.
    destruct (Mapper.create_metadata_step self item_map k v s)
      as [s1 [[]|e]]; [apply IH|reflexivity].
  - rewrite filter_cons_False by (rewrite Hsrc; exact id).
    cbn [Mapper.create_metadata_loop]. rewrite run_bind.
    rewrite create_metadata_step_skipped by exact Hsrc. apply IH.
Qed.

(** X13. The rules whose source path resolves to [None] contribute
    nothing: the metadata built from a source-path table is the metadata
    built from the table without them, be it a tree or an exception.  Their
    ids are not looked up and their target paths are not resolved. *)
Theorem absent_sources_are_skipped self item_map :
  Mapper._create_metadata self item_map
  = Mapper._create_metadata
      (with_json_map self
         (filter (fun rule => has_source self rule) (self_json_map self)))
      item_map.
Proof.
  unfold Mapper._create_metadata. cbn [with_json_map self_json_map].
  rewrite create_metadata_loop_filter. reflexivity.
Qed.

(** X14. A rule that has a source value and whose id the target-path
    table lacks ends the mapping with a plain [KeyError], not with the
    module's exception, when the rules before it were skipped for having no
    source value. *)
Theorem undefined_rule_id_is_key_error self item_map skipped k v rest w :
  self_json_map self = (skipped ++ (k, v) :: rest)%list ->
  Forall (fun rule => has_source self rule = false) skipped ->
  _get_json_metadata_value (self_json self) v = Ok w ->
  w <> JNull ->
  item_map !! k = None ->
  Mapper._create_metadata self item_map = Raise KeyError.
Proof.
  intros Hmap Hskipped Hsrc Hw Hk. unfold Mapper._create_metadata.
  rewrite Hmap. clear Hmap. generalize (JDict []).
  induction Hskipped as [|[k0 v0] skipped Hrule _ IH]; intros s.
  - cbn [app Mapper.create_metadata_loop]. rewrite run_bind.
    unfold Mapper.create_metadata_step. rewrite run_lift, Hsrc.
    rewrite (is_none_false _ Hw), run_lift, Hk. reflexivity.
  - cbn [app Mapper.create_metadata_loop]. rewrite run_bind.
    rewrite create_metadata_step_skipped by exact Hrule. apply IH.
Qed.

Lemma undefined_rule_id_is_key_error_witness :
  Mapper._create_metadata
    {| self_json :=
         JDict [("record", JDict [("metadata", JDict [("b", JStr "x")])])];
       self_itemtype_schema := JDict [];
       self_json_map := [("r1", "a"); ("r2", "b")] |}
    ∅
  = Raise KeyError.
Proof.
  apply (undefined_rule_id_is_key_error _ ∅ [("r1", "a")] "r2" "b" []
           (JStr "x")).
  - reflexivity.
  - repeat constructor.
  - reflexivity.
  - discriminate.
  - reflexivity.
Defined.

(** ** The result of [map] *)

(** X15. When the schema properties are dicts, the loop of [map] over them
    returns one entry per property titled ["File"], in schema order, that
    pairs the property's key with what the metadata holds at that key,
    [None] when it holds nothing. *)
Theorem files_info_in_schema_order metadata properties :
  Forall (fun property => Py.is_dict property.2 = true) properties ->
  Mapper.files_info_loop (JDict metadata) properties
  = Ok (file_entry metadata
          <$> (filter (fun property => titled_file property) properties).*1).
Proof.
  induction 1 as [|[k v] properties Hv _ IH]; [reflexivity|].
  cbn [snd] in Hv. destruct v as [| | | | |d]; try discriminate Hv.
  cbn [Mapper.files_info_loop Py.get]. cbn [mbind result_bind].
  unfold mbind, result_bind. rewrite IH.
  destruct (Py.eq_str (default JNull (Py.lookup "title" d)) "File") eqn:Ht.
  - rewrite filter_cons_True by (unfold titled_file; cbn [snd]; rewrite Ht; exact I).
    reflexivity.
  - rewrite filter_cons_False by (unfold titled_file; cbn [snd]; rewrite Ht; exact id).
    reflexivity.
Qed.

Lemma files_info_in_schema_order_witness :
  Mapper.files_info_loop (JDict [("f", JList [JDict [("url", JStr "u")]])])
    [("t", JDict [("title", JStr "Title")]);
     ("f", JDict [("title", JStr "File")]);
     ("g", JDict [("title", JStr "File")])]
  = Ok [JDict [("key", JStr "f");
               ("items", JList [JDict [("url", JStr "u")]])];
        JDict [("key", JStr "g"); ("items", JNull)]].
Proof.
  apply (files_info_in_schema_order
           [("f", JList [JDict [("url", JStr "u")]])]).
  repeat constructor.
Defined.

Lemma lookup_None_keys k d : Py.lookup k d = None <-> k ∉ d.*1.
Proof.
  induction d as [|[k0 v0] d IH]; cbn.
  - split; [intros _; apply not_elem_of_nil | reflexivity].
  - rewrite not_elem_of_cons. destruct (String.eqb_spec k k0) as [->|Hne].
    + split; [discriminate | intros [Hk _]; contradiction].
    + rewrite IH. tauto.
Qed.

Lemma store_keys_NoDup k v d : NoDup d.*1 -> NoDup (Py.store k v d).*1.
Proof.
  induction d as [|[k0 v0] d IH]; cbn.
  - intros _. apply NoDup_singleton.
  - rewrite NoDup_cons. intros [Hk0 Hd].
    destruct (String.eqb_spec k k0) as [->|Hne]; cbn.
    + apply NoDup_cons. auto.
    + apply NoDup_cons. split; [|apply IH, Hd].
      intros Hin. apply Hk0. apply lookup_None_keys in Hk0 as Hnone.
      destruct (Py.lookup k0 (Py.store k v d)) eqn:Hl.
      * rewrite lookup_store_ne in Hl by auto. congruence.
      * apply lookup_None_keys in Hl. contradiction.
Qed.

Lemma lookup_update other : forall res k,
  NoDup other.*1 ->
  Py.lookup k (Mapper.update res other)
  = match Py.lookup k other with
    | Some v => Some v
    | None => Py.lookup k res
    end.
Proof.
  unfold Mapper.update.
  induction other as [|[k0 v0] other IH]; intros res k; [reflexivity|].
  cbn [fmap list_fmap fst]. rewrite NoDup_cons. intros [Hk0 Hother].
  cbn [foldl fst snd Py.lookup]. rewrite IH by exact Hother.
  destruct (String.eqb_spec k k0) as [->|Hne].
  - apply lookup_None_keys in Hk0. rewrite Hk0. apply lookup_store.
  - destruct (Py.lookup k other); [reflexivity|].
    apply lookup_store_ne, Hne.
Qed.

Lemma create_metadata_loop_NoDup self item_map json_map : forall d s' r,
  NoDup d.*1 ->
  Mapper.create_metadata_loop self item_map json_map (JDict d) = (s', r) ->
  exists d', s' = JDict d' /\ NoDup d'.*1.
Proof.
  induction json_map as [|[k v] rest IH]; intros d s' r Hd.
  - intros [= <- _]. eauto.
  - cbn [Mapper.create_metadata_loop]. rewrite run_bind.
    destruct (Mapper.create_metadata_step self item_map k v (JDict d))
      as [s1 r1] eqn:Hstep.
    assert (Hs1 : exists d1, s1 = JDict d1 /\ NoDup d1.*1).
    { unfold Mapper.create_metadata_step in Hstep. rewrite run_lift in Hstep.
      destruct (_get_json_metadata_value (self_json self) v) as [w|e];
        [|injection Hstep as <- _; eauto].
      destruct (Py.is_none w); [injection Hstep as <- _; eauto|].
      rewrite run_lift in Hstep.
      destruct (item_map !! k) as [path|]; [|injection Hstep as <- _; eauto].
      rewrite run_lift in Hstep.
      destruct (_get_type_of_item_type_path (self_itemtype_schema self) path)
        as [types|e]; [|injection Hstep as <- _; eauto].
      destruct (Py.split path) as [|k1 keys] eqn:Hsplit;
        [destruct (split_nonempty _ Hsplit)|].
      destruct (writes_only_create_metadata _ _ _ _ _ _ _ _ Hsplit Hstep)
        as [->|(d0 & u & [= <-] & ->)]; [eauto|].
      eexists. split; [reflexivity|]. apply store_keys_NoDup, Hd. }
    destruct Hs1 as (d1 & -> & Hd1). destruct r1 as [[]|e].
    + apply IH, Hd1.
    + intros [= <- _]. eauto.
Qed.

(** X16. The result of [map] for a record that is not deleted is a dict
    whose keys are the four keys [map] sets itself and the keys of the
    built metadata; at every key of the metadata it holds the metadata's
    value, so a rule that targets one of the four keys overrides it. *)
Theorem map_metadata_wins
    (is_deleted : WekoSwordMapper -> result bool)
    (datestamp : WekoSwordMapper -> result string)
    (_create_item_map : WekoSwordMapper -> result (gmap string string))
    (self : WekoSwordMapper) (result_ : json) :
  is_deleted self = Ok false ->
  Mapper.map is_deleted datestamp _create_item_map self = Ok result_ ->
  exists item_map metadata res,
    _create_item_map self = Ok item_map /\
    Mapper._create_metadata self item_map = Ok (JDict metadata) /\
    result_ = JDict res /\
    (forall k v, Py.lookup k metadata = Some v -> Py.lookup k res = Some v) /\
    (forall k, is_Some (Py.lookup k res) <->
       k ∈ fixed_keys \/ is_Some (Py.lookup k metadata)).
Proof.
  intros Hdel. unfold Mapper.map, mbind, result_bind. rewrite Hdel.
  destruct (datestamp self) as [pubdate|]; [|discriminate].
  destruct (Py.get (self_json self) "record") as [record|]; [|discriminate].
  destruct (Py.get record "header") as [header|]; [|discriminate].
  destruct (Py.get header "publish_status") as [status|]; [|discriminate].
  destruct (Py.get header "indextree") as [indextree|]; [|discriminate].
  destruct (_create_item_map self) as [item_map|]; [|discriminate].
  destruct (Mapper._create_metadata self item_map) as [md|] eqn:Hmd;
    [|discriminate].
  assert (Hdict : exists d, md = JDict d /\ NoDup d.*1).
  { unfold Mapper._create_metadata in Hmd.
    destruct (Mapper.create_metadata_loop self item_map (self_json_map self)
                (JDict [])) as [s' [[]|e]] eqn:Hloop; [|discriminate Hmd].
    injection Hmd as <-.
    eapply (create_metadata_loop_NoDup _ _ _ []); [constructor|exact Hloop]. }
  destruct Hdict as (metadata & -> & Hnodup).
  destruct (Py.get (self_itemtype_schema self) "properties") as [props|];
    [|discriminate].
  destruct (Py.items props) as [properties|]; [|discriminate].
  destruct (Mapper.files_info_loop (JDict metadata) properties)
    as [files_info|]; [|discriminate].
  cbn [Py.items]. intros [= <-].
  exists item_map, metadata. eexists. split; [reflexivity|].
  split; [exact Hmd|]. split; [reflexivity|].
  assert (Hfixed : forall k,
    is_Some (Py.lookup k
      (Mapper.update
         [("pubdate", JStr pubdate); ("publish_status", status);
          ("path", JList [indextree])]
         [("files_info", JList files_info)])) <-> k ∈ fixed_keys).
  { intros k. rewrite lookup_update by (apply NoDup_singleton).
    unfold fixed_keys. rewrite !elem_of_cons, elem_of_nil. cbn [Py.lookup].
    destruct (String.eqb_spec k "files_info") as [->|H1];
      [split; eauto 6|].
    destruct (String.eqb_spec k "pubdate") as [->|H2]; [split; eauto 6|].
    destruct (String.eqb_spec k "publish_status") as [->|H3];
      [split; eauto 6|].
    destruct (String.eqb_spec k "path") as [->|H4]; [split; eauto 6|].
    split; [intros [? [=]] | intros [?|[?|[?|[?|[]]]]]; contradiction]. }
  split.
  - intros k v Hk. rewrite lookup_update by exact Hnodup. rewrite Hk.
    reflexivity.
  - intros k. rewrite lookup_update by exact Hnodup.
    destruct (Py.lookup k metadata) as [v|].
    + split; eauto.
    + rewrite Hfixed. split; [auto | intros [H|[? [=]]]; exact H].
Qed.

Lemma map_metadata_wins_witness :
  exists item_map metadata res,
    Ok harvested_targets = Ok item_map /\
    Mapper._create_metadata harvested_record item_map = Ok (JDict metadata) /\
    JDict [("pubdate", JStr "2020"); ("publish_status", JStr "0");
           ("path", JList [JNum 7]); ("files_info", JList []);
           ("title", JStr "x")] = JDict res /\
    (forall k v, Py.lookup k metadata = Some v -> Py.lookup k res = Some v) /\
    (forall k, is_Some (Py.lookup k res) <->
       k ∈ fixed_keys \/ is_Some (Py.lookup k metadata)).
Proof.
  apply (map_metadata_wins (fun _ => Ok false) (fun _ => Ok "2024-01-01")
           (fun _ => Ok harvested_targets) harvested_record).
  - reflexivity.
  - vm_compute. reflexivity.
Defined.

(** ** Lists that are already in the tree *)

(** X17. A rule whose target path has several segments never extends or
    truncates a non-empty list that the tree holds at the first segment:
    whether the rule returns or raises, the tree holds there a list of the
    same length afterwards. *)
Theorem existing_list_keeps_length path k k' keys types v d old s' r :
  Py.split path = k :: k' :: keys ->
  Py.lookup k d = Some (JList old) ->
  old <> [] ->
  _create_metadata_of_a_property path types v (JDict d) = (s', r) ->
  exists d' old',
    s' = JDict d' /\ Py.lookup k d' = Some (JList old') /\
    length old' = length old.
Proof.
  intros Hpath Hk Hold.
  assert (Htruthy : Py.truthy (JList old) = true)
    by (destruct old; [contradiction|reflexivity]).
  assert (Hblock : forall fresh (m : mut unit), preserving m ->
    (ensure k fresh;; at_key k m) (JDict d) = (s', r) ->
    exists d' old',
      s' = JDict d' /\ Py.lookup k d' = Some (JList old') /\
      length old' = length old).
  { intros fresh m Hm.
    rewrite run_bind, (run_ensure_truthy _ _ _ _ Hk Htruthy).
    rewrite (run_at_key _ _ _ _ Hk).
    destruct (m (JList old)) as [c' r'] eqn:Hmc. intros [= <- _].
    destruct (Hm _ _ _ Hmc) as (old' & -> & Hlen).
    exists (Py.store k (JList old') d), old'.
    rewrite lookup_store. auto. }
  unfold _create_metadata_of_a_property. rewrite Hpath, run_lift.
  destruct (reconcile (count_array types) v) as [w|e];
    [|intros [= <- _]; eauto].
  destruct types as [|[] types].
  - intros [= <- _]. eauto.
  - apply Hblock, preserving_create_child.
  - destruct (0 <? count_array (Array :: types) - _get_dimensions w);
      [|destruct (_get_dimensions w =? 0)].
    + apply Hblock, preserving_at_index.
    + intros [= <- _]. eauto.
    + apply Hblock, preserving_for_range. intros i u.
      apply preserving_at_index.
  - intros [= <- _]. eauto.
Qed.

Lemma existing_list_keeps_length_witness :
  exists d' old',
    JDict [("p", JList [JDict [("q", JStr "x")]])] = JDict d' /\
    Py.lookup "p" d' = Some (JList old') /\
    length old' = length [JDict [("q", JStr "a")]].
Proof.
  apply (existing_list_keeps_length "p.q" "p" "q" [] [Array; Value]
           (JList [JStr "x"; JStr "y"])
           [("p", JList [JDict [("q", JStr "a")]])]
           [JDict [("q", JStr "a")]] _ (Raise IndexError)).
  - reflexivity.
  - reflexivity.
  - discriminate.
  - reflexivity.
Defined.

(** ** One-segment source paths to a list *)

(** X18. A one-segment source path whose key holds a list at the top level
    of the metadata returns the list only when it is empty; for a non-empty
    list the resolver raises, whatever the elements are. *)
Theorem top_level_list_only_empty self_json record metadata path k l :
  Py.getitem self_json "record" = Ok record ->
  Py.getitem record "metadata" = Ok (JDict metadata) ->
  Py.split path = [k] ->
  Py.lookup k metadata = Some (JList l) ->
  (l = [] -> _get_json_metadata_value self_json path = Ok (JList [])) /\
  (l <> [] -> exists e, _get_json_metadata_value self_json path = Raise e).
Proof.
  intros Hrec Hmd Hpath Hk. unfold _get_json_metadata_value.
  rewrite Hpath, Hrec. cbn [mbind result_bind]. rewrite Hmd.
  cbn [mbind result_bind Py.get]. rewrite Hk. cbn [from_option id].
  split.
  - intros ->. reflexivity.
  - intros Hne. destruct l as [|e l]; [contradiction|].
    unfold _detect_list, detect_list_body. cbn [negb detect_list_loop].
    destruct e; cbn; eauto.
Qed.

Lemma top_level_list_only_empty_witness :
  ([JDict [("a", JNum 1)]] = [] ->
   _get_json_metadata_value
     (JDict [("record",
        JDict [("metadata", JDict [("k", JList [JDict [("a", JNum 1)]])])])])
     "k"
   = Ok (JList [])) /\
  ([JDict [("a", JNum 1)]] <> [] -> exists e,
   _get_json_metadata_value
     (JDict [("record",
        JDict [("metadata", JDict [("k", JList [JDict [("a", JNum 1)]])])])])
     "k"
   = Raise e).
Proof.
  apply (top_level_list_only_empty _
           (JDict [("metadata", JDict [("k", JList [JDict [("a", JNum 1)]])])])
           [("k", JList [JDict [("a", JNum 1)]])] "k" "k"
           [JDict [("a", JNum 1)]]); reflexivity.
Defined.

(** ** Kinds of common schema shapes *)

(** X19. A one-segment target path that names an object property of the
    schema is rejected: the kinds end with [object], not [value]. *)
Theorem path_ending_on_object_rejected schema properties path k entry :
  Py.get schema "properties" = Ok (JDict properties) ->
  Py.split path = [k] ->
  Py.lookup k properties = Some (JDict entry) ->
  Py.lookup "type" entry = Some (JStr "object") ->
  _get_type_of_item_type_path schema path
  = Raise (WekoSwordserverException InvalidSchemaPathLast).
Proof.
  intros Hprops Hpath Hk Hty. unfold _get_type_of_item_type_path.
  rewrite Hprops, Hpath. cbn [mbind result_bind type_loop Py.contains].
  rewrite Hk, bool_decide_eq_true_2 by eauto.
  cbn [negb mbind result_bind Py.getitem]. rewrite Hk.
  cbn [mbind result_bind Py.get]. rewrite Hty. reflexivity.
Qed.

Lemma path_ending_on_object_rejected_witness :
  _get_type_of_item_type_path
    (JDict [("properties",
       JDict [("creator",
         JDict [("type", JStr "object");
                ("properties",
                 JDict [("name", JDict [("type", JStr "string")])])])])])
    "creator"
  = Raise (WekoSwordserverException InvalidSchemaPathLast).
Proof.
  eapply (path_ending_on_object_rejected _ _ "creator" "creator");
    reflexivity.
Defined.

(** X20. For a property [a] declared as an array whose items declare a
    property [b] that is neither object nor array, the path [a.b] resolves
    to the kinds [array, value]: the second segment is looked up in the
    properties of the items. *)
Theorem array_of_objects_kinds
    schema properties path a b entry items element declared :
  Py.get schema "properties" = Ok (JDict properties) ->
  Py.split path = [a; b] ->
  Py.lookup a properties = Some (JDict entry) ->
  Py.lookup "type" entry = Some (JStr "array") ->
  Py.lookup "items" entry = Some (JDict items) ->
  Py.lookup "properties" items = Some (JDict element) ->
  Py.lookup b element = Some (JDict declared) ->
  Py.eq_str (default JNull (Py.lookup "type" declared)) "object" = false ->
  Py.eq_str (default JNull (Py.lookup "type" declared)) "array" = false ->
  _get_type_of_item_type_path schema path = Ok [Array; Value].
Proof.
  intros Hprops Hpath Ha Hty Hitems Helem Hb Hobj Harr.
  unfold _get_type_of_item_type_path.
  rewrite Hprops, Hpath. cbn [mbind result_bind type_loop Py.contains].
  rewrite Ha, bool_decide_eq_true_2 by eauto.
  cbn [negb mbind result_bind Py.getitem]. rewrite Ha.
  cbn [mbind result_bind Py.get]. rewrite Hty.
  cbn [from_option id Py.eq_str String.eqb Ascii.eqb Bool.eqb].
  cbn [mbind result_bind]. rewrite Hitems.
  cbn [from_option id mbind result_bind Py.get]. rewrite Helem.
  cbn [from_option id mbind result_bind Py.contains].
  rewrite Hb, bool_decide_eq_true_2 by eauto.
  cbn [negb mbind result_bind Py.getitem]. rewrite Hb.
  cbn [mbind result_bind Py.get]. rewrite Hobj, Harr. reflexivity.
Qed.

Lemma array_of_objects_kinds_witness :
  _get_type_of_item_type_path
    (JDict [("properties",
       JDict [("a",
         JDict [("type", JStr "array");
                ("items",
                 JDict [("properties",
                   JDict [("b", JDict [("type", JStr "string")])])])])])])
    "a.b"
  = Ok [Array; Value].
Proof.
  eapply (array_of_objects_kinds _ _ "a.b" "a" "b"); reflexivity.
Defined.

(** ** Two replicated rules under one array *)

Lemma leaf_not_none q v : v <> JNull -> leaf q v = JDict [(q, v)].
Proof. intros Hv. unfold leaf. rewrite (is_none_false _ Hv). reflexivity. Qed.

(** The loop of a second rule along the last key [r], over the objects a
    first rule left for the last key [q]. *)
Lemma for_range_pairs diff q r types ws :
  q <> r ->
  Forall (fun w => w <> JNull) ws ->
  forall vs done_,
    length vs = length ws ->
    Forall (fun v => v <> JNull) vs ->
    for_range
      (fun i w => at_index i
         (_create_child_metadata_of_a_property diff [r] types w))
      (length done_) ws
      (JList (done_ ++ (leaf q <$> vs))%list)
    = (JList (done_ ++ zip_with (pair_entry q r) vs ws)%list, Ok tt).
Proof.
  intros Hqr Hws. induction Hws as [|w ws Hw _ IH]; intros vs done_ Hlen Hvs.
  - destruct vs; [reflexivity|discriminate Hlen].
  - destruct vs as [|v vs]; [discriminate Hlen|].
    apply Forall_cons in Hvs as [Hv Hvs]. injection Hlen as Hlen.
    cbn [for_range fmap list_fmap zip_with].
    rewrite run_bind, (run_at_index _ _ _ (leaf q v))
      by (apply list_lookup_middle; reflexivity).
    rewrite create_child_last, (is_none_false _ Hw), (leaf_not_none _ _ Hv).
    unfold self_setitem. cbn [Py.setitem Py.store].
    destruct (String.eqb_spec r q) as [->|_]; [contradiction|].
    rewrite insert_app_r_alt by lia. rewrite Nat.sub_diag.
    cbn [insert list_insert].
    specialize (IH vs (done_ ++ [pair_entry q r v w])%list Hlen Hvs).
    rewrite length_app in IH. cbn [length] in IH.
    replace (length done_ + 1)%nat with (S (length done_)) in IH by lia.
    rewrite <- !(assoc_L (++)) in IH. exact IH.
Qed.

Lemma replicate_run path p q vs d :
  Py.split path = [p; q] ->
  _get_dimensions (JList vs) = 1 ->
  Py.lookup p d = None ->
  _create_metadata_of_a_property path [Array; Value] (JList vs) (JDict d)
  = (JDict (Py.store p (JList (leaf q <$> vs)) d), Ok tt).
Proof.
  intros Hpath Hdim Hp.
  unfold _create_metadata_of_a_property. rewrite Hpath.
  change (count_array [Array; Value]) with 1.
  rewrite run_lift, reconcile_fits by lia. rewrite Hdim.
  change (0 <? 1 - 1) with false. change (1 =? 0) with false. cbv iota.
  rewrite run_bind, run_ensure_absent by exact Hp.
  rewrite (run_at_key _ _ _ _ (lookup_store _ _ _)).
  cbn [Py.elements].
  rewrite (for_range_leaves _ q [Value] vs []), store_store. reflexivity.
Qed.

(** X21. Two rules that replicate lists of the same length under the same
    array are merged element by element: after [p.q] and then [p.r] have
    been written with kinds [array, value], the i-th object at [p] holds
    the i-th value of each rule. *)
Theorem replicated_rules_merge_elementwise path1 path2 p q r vs ws d :
  Py.split path1 = [p; q] ->
  Py.split path2 = [p; r] ->
  q <> r ->
  _get_dimensions (JList vs) = 1 ->
  _get_dimensions (JList ws) = 1 ->
  Forall (fun v => v <> JNull) vs ->
  Forall (fun w => w <> JNull) ws ->
  length vs = length ws ->
  Py.lookup p d = None ->
  exists once,
    _create_metadata_of_a_property path1 [Array; Value] (JList vs) (JDict d)
    = (once, Ok tt) /\
    _create_metadata_of_a_property path2 [Array; Value] (JList ws) once
    = (JDict (d ++ [(p, JList (zip_with (pair_entry q r) vs ws))])%list,
       Ok tt).
Proof.
  intros Hp1 Hp2 Hqr Hdv Hdw Hvs Hws Hlen Hp.
  eexists. split; [apply (replicate_run _ p q), Hp; assumption|].
  unfold _create_metadata_of_a_property. rewrite Hp2.
  change (count_array [Array; Value]) with 1.
  rewrite run_lift, reconcile_fits by lia. rewrite Hdw.
  change (0 <? 1 - 1) with false. change (1 =? 0) with false. cbv iota.
  cbn [Py.elements]. rewrite run_bind.
  destruct vs as [|v vs].
  - destruct ws; [|discriminate Hlen].
    rewrite (run_ensure_falsy _ _ _ (JList [])) by auto using lookup_store.
    rewrite (run_at_key _ _ _ _ (lookup_store _ _ _)).
    cbn. rewrite !store_store, store_absent by exact Hp. reflexivity.
  - rewrite (run_ensure_truthy _ _ _ (JList (leaf q <$> v :: vs)))
      by auto using lookup_store.
    rewrite (run_at_key _ _ _ _ (lookup_store _ _ _)).
    rewrite (for_range_pairs _ q r [Value] ws Hqr Hws (v :: vs) [] Hlen Hvs).
    rewrite store_store, store_absent by exact Hp. reflexivity.
Qed.

Lemma replicated_rules_merge_elementwise_witness :
  exists once,
    _create_metadata_of_a_property "p.q" [Array; Value]
      (JList [JStr "x"; JStr "y"]) (JDict [])
    = (once, Ok tt) /\
    _create_metadata_of_a_property "p.r" [Array; Value]
      (JList [JNum 1; JNum 2]) once
    = (JDict [("p", JList [JDict [("q", JStr "x"); ("r", JNum 1)];
                           JDict [("q", JStr "y"); ("r", JNum 2)]])],
       Ok tt).
Proof.
  apply (replicated_rules_merge_elementwise "p.q" "p.r" "p" "q" "r"
           [JStr "x"; JStr "y"] [JNum 1; JNum 2] []);
    try reflexivity; try discriminate; repeat constructor; discriminate.
Defined.
